(** * Pet-care platform: booking engine and owner-scoped CRUD

    A shallow embedding of the Express/Mongoose handlers of the
    pet-care-platform backend (controllers, models, route middleware) and
    the properties of its specification that concern them.

    Conventions of the embedding:
    - a MongoDB collection is a finite map from [_id] (a string) to the
      document; a Mongoose query is a lookup or a filter over that map;
    - a JavaScript [Date] is its millisecond timestamp, an integer;
    - a JavaScript [Number] holding money or a duration is an exact
      rational: rounding of binary floating point is not modelled;
    - a handler is a function from the database (and the readings of the
      clock it performs) to the HTTP response and the database it leaves;
    - an exception passed to [next] goes through [errorMiddleware]. *)

From Stdlib Require Import ZArith QArith Qabs Qround Ascii String.
From Stdlib Require Import Floats.
From stdpp Require Import base option list strings gmap pretty sorting.

Local Open Scope string_scope.
Local Open Scope list_scope.
Local Open Scope Z_scope.

(** ** HTTP envelope and the error middleware *)

Module Http.

(** What a handler puts under [data] (or next to [status]). *)
Inductive Payload (Doc : Type) :=
| NoData
| Null
| One (d : Doc)
| Details (errors : list (string * string))
| Roles (userRole : string) (requiredRoles : list string).
Arguments NoData {Doc}.
Arguments Null {Doc}.
Arguments One {Doc} d.
Arguments Details {Doc} errors.
Arguments Roles {Doc} userRole requiredRoles.

Record Response (Doc : Type) := mkResponse {
  code : Z;
  status : string;
  message : option string;
  data : Payload Doc
}.
Arguments mkResponse {Doc}.
Arguments code {Doc}.
Arguments status {Doc}.
Arguments message {Doc}.
Arguments data {Doc}.

(** [res.status(c).json({status: 'fail', message: m})] *)
Definition fail {Doc} (c : Z) (m : string) : Response Doc :=
  mkResponse c "fail" (Some m) NoData.

(** The double-quote character, for the messages that contain it. *)
Definition dq : string := String (Ascii.ascii_of_nat 34) EmptyString.

(** A thrown JavaScript error: its [name], its [message] and, for Mongoose's
    [ValidationError], the messages of its [errors]. *)
Record Exn := mkExn {
  name : string;
  msg : string;
  errors : list string
}.

(** [new Error(msg)], [TypeError], [CastError]: no [errors]. *)
Definition Throw (name msg : string) : Exn := mkExn name msg [].

Fixpoint join (sep : string) (l : list string) : string :=
  match l with
  | [] => ""
  | [x] => x
  | x :: r => x +:+ sep +:+ join sep r
  end.

(** The [ValidationError] of a failed [save]; the middleware reads its
    [errors], not its [message]. *)
Definition ValidationFailed (errors : list string) : Exn :=
  mkExn "ValidationError" ("Validation failed: " +:+ join ", " errors) errors.

(** [errorMiddleware], its branches on [err.name] in order; the branches on
    [err.code] (duplicate key, Multer) and on the JWT names concern errors
    that no modelled handler raises. *)
Definition errorMiddleware {Doc} (err : Exn) : Response Doc :=
  let error : option Z * string := (None, msg err) in
  let error :=
    if bool_decide (name err = "CastError")
    then (Some 404, "Resource not found") else error in
  let error :=
    if bool_decide (name err = "ValidationError")
    then (Some 400, join ", " (errors err)) else error in
  let statusCode := default 500 error.1 in
  let message := if bool_decide (error.2 = "") then "Server Error" else error.2 in
  mkResponse statusCode
    (if (400 <=? statusCode) && (statusCode <? 500) then "fail" else "error")
    (Some message) NoData.

(** The outcome of a call that may throw. *)
Inductive Try (A : Type) :=
| Ok (a : A)
| Raise (e : Exn).
Arguments Ok {A} a.
Arguments Raise {A} e.

(** The error taxonomy of the specification, read off a response. *)
Definition isNotFound {Doc} (r : Response Doc) : Prop := code r = 404.
Definition isForbidden {Doc} (r : Response Doc) : Prop := code r = 403.
Definition isSuccess {Doc} (r : Response Doc) : Prop :=
  status r = "success".

End Http.

(** ** Mongoose's cast of a string to an [ObjectId] (bson 6: exactly 24
    hexadecimal digits); a query on [_id] with any other string throws a
    [CastError]. *)

Module ObjectId.

Definition isHex (c : Ascii.ascii) : bool :=
  let n := Ascii.nat_of_ascii c in
  ((48 <=? n) && (n <=? 57) || (65 <=? n) && (n <=? 70)
   || (97 <=? n) && (n <=? 102))%nat.

Definition isValid (s : string) : bool :=
  (String.length s =? 24)%nat && forallb isHex (String.list_ascii_of_string s).

Definition castError : Http.Exn :=
  Http.Throw "CastError" "Cast to ObjectId failed".

End ObjectId.

(** ** The authenticated caller ([req.user], attached by [protect]) and the
    role gate [restrictTo] of authMiddleware. *)

Record Caller := { id : string; role : string }.

(** A middleware either answers the request ([Some] response) or calls
    [next()] ([None]). *)
Definition restrictTo {Doc} (roles : list string) (user : Caller)
    : option (Http.Response Doc) :=
  if negb (bool_decide (role user ∈ roles)) then
    let message0 := "You do not have permission to perform this action" in
    let message :=
      if bool_decide ("sitter" ∈ roles) && bool_decide (role user = "owner")
      then "Only pet sitters can perform this action. Pet owners cannot create or manage services."
      else if bool_decide ("owner" ∈ roles) && bool_decide (role user = "sitter")
      then "Only pet owners can perform this action. Sitters cannot manage pets."
      else message0 in
    Some (Http.mkResponse 403 "fail" (Some message) (Http.Roles (role user) roles))
  else None.

(** ** JavaScript values met by the handlers *)

Module Js.

(** The result of [parseInt]: [NaN] or an integral number.  Array lengths
    are below 2^32, so comparing the exact integer with a length gives what
    the comparison of the doubles gives. *)
Inductive Int := NaN | Num (z : Z).

(** [x < n] and [x >= n]: every comparison with [NaN] is false. *)
Definition lt (x : Int) (n : Z) : bool :=
  match x with NaN => false | Num z => z <? n end.
Definition ge (x : Int) (n : Z) : bool :=
  match x with NaN => false | Num z => n <=? z end.

(** [a[x]]: [undefined] unless [x] is an index of the array. *)
Definition index {A} (a : list A) (x : Int) : option A :=
  match x with
  | NaN => None
  | Num z => if z <? 0 then None else a !! Z.to_nat z
  end.

(** [a.splice(start, deleteCount)], the array it leaves: a negative
    [start] counts from the end, [NaN] is 0, and [start] is clamped to the
    length. *)
Definition splice {A} (a : list A) (start : Int) (deleteCount : nat) : list A :=
  let len := Z.of_nat (length a) in
  let relativeStart := match start with NaN => 0 | Num z => z end in
  let actualStart :=
    if relativeStart <? 0 then Z.max (len + relativeStart) 0
    else Z.min relativeStart len in
  take (Z.to_nat actualStart) a ++ drop (Z.to_nat actualStart + deleteCount) a.

Fixpoint dropSlashes (l : list Ascii.ascii) : list Ascii.ascii :=
  match l with
  | c :: r => if Ascii.eqb c "/"%char then dropSlashes r else l
  | [] => []
  end.

Fixpoint untilSlash (l : list Ascii.ascii) : list Ascii.ascii :=
  match l with
  | c :: r => if Ascii.eqb c "/"%char then [] else c :: untilSlash r
  | [] => []
  end.

(** [path.basename(p)] (POSIX): the last segment of the path, trailing
    separators ignored.  It validates its argument first: [undefined]
    throws a [TypeError]. *)
Definition basename (p : option string) : Http.Try string :=
  match p with
  | Some s =>
      Http.Ok (String.string_of_list_ascii
        (rev (untilSlash (dropSlashes (rev (String.list_ascii_of_string s))))))
  | None =>
      Http.Raise (Http.Throw "TypeError"
        ("The " +:+ Http.dq +:+ "path" +:+ Http.dq
         +:+ " argument must be of type string. Received undefined"))
  end.

End Js.

(** ** Documents

    Each record keeps the fields the modelled handlers read or write; the
    other fields of a schema are carried along unchanged by every handler
    and are left out.  The [_id] of a document is its key in the
    collection. *)

Module Pet.

Record t := mk {
  owner : string;
  name : string;
  species : string;
  photos : list string;
  isActive : bool
}.

Definition set_isActive (v : bool) (p : t) : t :=
  mk (owner p) (name p) (species p) (photos p) v.

Definition set_photos (v : list string) (p : t) : t :=
  mk (owner p) (name p) (species p) v (isActive p).

(** [Pet.findOne({ _id: id, owner: owner, isActive: true })] *)
Definition findOne (pets : gmap string t) (id owner_ : string)
    : Http.Try (option t) :=
  if ObjectId.isValid id then
    Http.Ok (match pets !! id with
             | Some p =>
                 if bool_decide (owner p = owner_) && isActive p
                 then Some p else None
             | None => None
             end)
  else Http.Raise ObjectId.castError.

End Pet.

(** ** Pet controller (petController.js) *)

Module PetController.

Abbreviation Response := (Http.Response Pet.t).

Definition notFound : Response := Http.fail 404 "No pet found with that ID".

(** [getPet]: GET /api/pets/:id *)
Definition getPet (pets : gmap string Pet.t) (user : Caller) (id_ : string)
    : Response :=
  match Pet.findOne pets id_ (id user) with
  | Http.Raise error => Http.errorMiddleware error
  | Http.Ok None => notFound
  | Http.Ok (Some pet) => Http.mkResponse 200 "success" None (Http.One pet)
  end.

(** [deletePhoto]: DELETE /api/pets/:id/photos/:photoIndex, with
    [photoIndex] the value of [parseInt(req.params.photoIndex)].  The
    result of [deleteFile] is discarded by the inner try/catch. *)
Definition deletePhoto (pets : gmap string Pet.t) (user : Caller)
    (id_ : string) (photoIndex : Js.Int) : Response * gmap string Pet.t :=
  match Pet.findOne pets id_ (id user) with
  | Http.Raise error => (Http.errorMiddleware error, pets)
  | Http.Ok None => (notFound, pets)
  | Http.Ok (Some pet) =>
      if Js.lt photoIndex 0
         || Js.ge photoIndex (Z.of_nat (length (Pet.photos pet)))
      then (Http.fail 400 "Invalid photo index", pets)
      else
        let photoUrl := Js.index (Pet.photos pet) photoIndex in
        match Js.basename photoUrl with
        | Http.Raise error => (Http.errorMiddleware error, pets)
        | Http.Ok filename =>
            let pet := Pet.set_photos (Js.splice (Pet.photos pet) photoIndex 1) pet in
            (Http.mkResponse 200 "success" None (Http.One pet),
             <[id_ := pet]> pets)
        end
  end.

(** [deletePet]: DELETE /api/pets/:id (soft delete) *)
Definition deletePet (pets : gmap string Pet.t) (user : Caller) (id_ : string)
    : Response * gmap string Pet.t :=
  match Pet.findOne pets id_ (id user) with
  | Http.Raise error => (Http.errorMiddleware error, pets)
  | Http.Ok None => (notFound, pets)
  | Http.Ok (Some pet) =>
      let pet := Pet.set_isActive false pet in
      (Http.mkResponse 200 "success" (Some "Pet deleted successfully") Http.Null,
       <[id_ := pet]> pets)
  end.

End PetController.

(** petRoutes.js: [protect] has resolved the caller, then
    [restrictTo('owner')] gates every pet route. *)

Module PetRoutes.

Definition get (pets : gmap string Pet.t) (user : Caller) (id_ : string)
    : PetController.Response :=
  match restrictTo ["owner"] user with
  | Some denied => denied
  | None => PetController.getPet pets user id_
  end.

Definition deletePhoto (pets : gmap string Pet.t) (user : Caller)
    (id_ : string) (photoIndex : Js.Int)
    : PetController.Response * gmap string Pet.t :=
  match restrictTo ["owner"] user with
  | Some denied => (denied, pets)
  | None => PetController.deletePhoto pets user id_ photoIndex
  end.

Definition delete (pets : gmap string Pet.t) (user : Caller) (id_ : string)
    : PetController.Response * gmap string Pet.t :=
  match restrictTo ["owner"] user with
  | Some denied => (denied, pets)
  | None => PetController.deletePet pets user id_
  end.

End PetRoutes.

(** ** Identity store and login (User.js, authController.js) *)

Module User.

Record t := mk {
  name : string;
  email : string;
  password : option string;
  role : string;
  isActive : bool;
  lastLogin : option Z
}.

Definition set_lastLogin (v : option Z) (u : t) : t :=
  mk (name u) (email u) (password u) (role u) (isActive u) v.

Definition set_password (v : option string) (u : t) : t :=
  mk (name u) (email u) v (role u) (isActive u) (lastLogin u).

End User.

Module AuthController.

Abbreviation Response := (Http.Response (string * User.t)).

Section Login.

(** What the libraries compute: Mongoose's cast of the [email] of a query
    filter (the setters of the schema path), [bcrypt.compare], and
    [jwt.sign] on the claims [id], [email], [role], which may throw. *)
Variable castEmail : string → string.
Variable bcryptCompare : string → string → bool.
Variable jwtSign : string → string → string → Http.Try string.

(** [this.findOne({ email }).select('+password')] *)
Definition findOne (users : gmap string User.t) (email : string)
    : option (string * User.t) :=
  head (filter (λ kv, User.email kv.2 = castEmail email) (map_to_list users)).

(** [user.correctPassword(candidatePassword, userPassword)] *)
Definition correctPassword (candidatePassword : string)
    (userPassword : option string) : bool :=
  match userPassword with
  | Some hash => bcryptCompare candidatePassword hash
  | None => false
  end.

(** [userSchema.statics.findByCredentials] *)
Definition findByCredentials (users : gmap string User.t)
    (email password : string) : Http.Try (string * User.t) :=
  match findOne users email with
  | None => Http.Raise (Http.Throw "Error" "Invalid login credentials")
  | Some (uid, user) =>
      let isMatch := correctPassword password (User.password user) in
      if negb isMatch
      then Http.Raise (Http.Throw "Error" "Invalid login credentials")
      else if negb (User.isActive user)
      then Http.Raise (Http.Throw "Error"
             "Account is deactivated. Please reactivate your account to continue.")
      else Http.Ok (uid, user)
  end.

(** [createSendToken(user, statusCode, res)] *)
Definition createSendToken (uid : string) (user : User.t) (statusCode : Z)
    : Http.Try Response :=
  match jwtSign uid (User.email user) (User.role user) with
  | Http.Raise e => Http.Raise e
  | Http.Ok token =>
      let user := User.set_password None user in
      Http.Ok (Http.mkResponse statusCode "success" None (Http.One (token, user)))
  end.

Definition invalidLogin : Response :=
  Http.fail 401 "Invalid email or password".

(** [login]: POST /api/auth/login; [now] is the reading of [new Date()].
    Whatever is thrown inside the [try] is answered by the [catch]. *)
Definition login (users : gmap string User.t) (email password : string)
    (now : Z) : Response * gmap string User.t :=
  match findByCredentials users email password with
  | Http.Raise error => (invalidLogin, users)
  | Http.Ok (uid, user) =>
      let user := User.set_lastLogin (Some now) user in
      let users := <[uid := user]> users in
      match createSendToken uid user 200 with
      | Http.Raise error => (invalidLogin, users)
      | Http.Ok response => (response, users)
      end
  end.

(** The three ways a login is refused. *)
Inductive Refused (users : gmap string User.t) (email password : string)
    : Prop :=
| UnknownEmail :
    findOne users email = None → Refused users email password
| WrongPassword uid user :
    findOne users email = Some (uid, user) →
    correctPassword password (User.password user) = false →
    Refused users email password
| Deactivated uid user :
    findOne users email = Some (uid, user) →
    User.isActive user = false →
    Refused users email password.

End Login.

End AuthController.

(** ** Service listings (Service.js) *)

Module Service.

Record t := mk {
  sitter : string;
  title : string;
  price : Q;
  priceType : string;
  petTypes : list string;
  instantBooking : bool;
  totalBookings : Z;
  isActive : bool
}.

Definition set_totalBookings (v : Z) (s : t) : t :=
  mk (sitter s) (title s) (price s) (priceType s) (petTypes s)
     (instantBooking s) v (isActive s).

(** [Service.findOne({ _id: id, isActive: true })] *)
Definition findOne (services : gmap string t) (id_ : string)
    : Http.Try (option t) :=
  if ObjectId.isValid id_ then
    Http.Ok (match services !! id_ with
             | Some s => if isActive s then Some s else None
             | None => None
             end)
  else Http.Raise ObjectId.castError.

(** [Service.findByIdAndUpdate(id, { $inc: { totalBookings: 1 } })]: no
    document, no effect. *)
Definition incTotalBookings (services : gmap string t) (id_ : string)
    : gmap string t :=
  alter (λ s, set_totalBookings (totalBookings s + 1) s) id_ services.

End Service.

(** ** Bookings (Booking.js) *)

Module Booking.

Record Check := mkCheck {
  time : option Z;
  checkNotes : option string;
  checkPhotos : list string
}.

Record Update := mkUpdate {
  updateTime : Z;
  message : option string;
  updatePhotos : list string;
  author : string
}.

Record Cancellation := mkCancellation {
  cancelledBy : string;
  cancelledAt : Z;
  reason : option string;
  refundAmount : Q
}.

Record t := mk {
  owner : string;
  sitter : string;
  service : string;
  pet : string;
  startDate : Z;
  endDate : Z;
  startTime : option string;
  endTime : option string;
  status : string;
  totalPrice : Q;
  serviceFee : Q;
  notes : option string;
  ownerNotes : option string;
  sitterNotes : option string;
  checkIn : Check;
  checkOut : Check;
  updates : list Update;
  cancellation : option Cancellation
}.

Definition set_status (v : string) (b : t) : t :=
  mk (owner b) (sitter b) (service b) (pet b) (startDate b) (endDate b)
     (startTime b) (endTime b) v (totalPrice b) (serviceFee b) (notes b)
     (ownerNotes b) (sitterNotes b) (checkIn b) (checkOut b) (updates b)
     (cancellation b).

Definition set_ownerNotes (v : option string) (b : t) : t :=
  mk (owner b) (sitter b) (service b) (pet b) (startDate b) (endDate b)
     (startTime b) (endTime b) (status b) (totalPrice b) (serviceFee b)
     (notes b) v (sitterNotes b) (checkIn b) (checkOut b) (updates b)
     (cancellation b).

Definition set_sitterNotes (v : option string) (b : t) : t :=
  mk (owner b) (sitter b) (service b) (pet b) (startDate b) (endDate b)
     (startTime b) (endTime b) (status b) (totalPrice b) (serviceFee b)
     (notes b) (ownerNotes b) v (checkIn b) (checkOut b) (updates b)
     (cancellation b).

Definition set_checkIn (v : Check) (b : t) : t :=
  mk (owner b) (sitter b) (service b) (pet b) (startDate b) (endDate b)
     (startTime b) (endTime b) (status b) (totalPrice b) (serviceFee b)
     (notes b) (ownerNotes b) (sitterNotes b) v (checkOut b) (updates b)
     (cancellation b).

Definition set_checkOut (v : Check) (b : t) : t :=
  mk (owner b) (sitter b) (service b) (pet b) (startDate b) (endDate b)
     (startTime b) (endTime b) (status b) (totalPrice b) (serviceFee b)
     (notes b) (ownerNotes b) (sitterNotes b) (checkIn b) v (updates b)
     (cancellation b).

Definition set_updates (v : list Update) (b : t) : t :=
  mk (owner b) (sitter b) (service b) (pet b) (startDate b) (endDate b)
     (startTime b) (endTime b) (status b) (totalPrice b) (serviceFee b)
     (notes b) (ownerNotes b) (sitterNotes b) (checkIn b) (checkOut b) v
     (cancellation b).

Definition set_cancellation (v : option Cancellation) (b : t) : t :=
  mk (owner b) (sitter b) (service b) (pet b) (startDate b) (endDate b)
     (startTime b) (endTime b) (status b) (totalPrice b) (serviceFee b)
     (notes b) (ownerNotes b) (sitterNotes b) (checkIn b) (checkOut b)
     (updates b) v.

(** The values of the [status] enum. *)
Definition statuses : list string :=
  ["pending"; "confirmed"; "in_progress"; "completed"; "cancelled"; "declined"].

(** [x > y] on numbers. *)
Definition gt (x y : Q) : bool := negb (Qle_bool x y).

(** [(this.startDate - new Date()) / (1000 * 60 * 60)] *)
Definition hoursUntilStart (b : t) (now : Z) : Q :=
  inject_Z (startDate b - now) / inject_Z (1000 * 60 * 60).

(** [bookingSchema.methods.canBeCancelled]; [now] is its [new Date()]. *)
Definition canBeCancelled (b : t) (now : Z) : bool :=
  if bool_decide (status b = "completed") || bool_decide (status b = "cancelled")
  then false
  else gt (hoursUntilStart b now) 24.

(** [bookingSchema.methods.calculateRefund]; [now] is its [new Date()]. *)
Definition calculateRefund (b : t) (now : Z) : Q :=
  let hoursUntilStart := hoursUntilStart b now in
  if gt hoursUntilStart 48 then totalPrice b
  else if gt hoursUntilStart 24 then totalPrice b * (5 # 10)
  else 0.

(** [bookingSchema.statics.findConflicts], with [excludeBookingId] the
    optional fourth argument. *)
Definition findConflicts (bookings : gmap string t) (sitterId : string)
    (startDate_ endDate_ : Z) (excludeBookingId : option string)
    : list (string * t) :=
  filter (λ kv : string * t,
            sitter kv.2 = sitterId
            ∧ status kv.2 ∈ ["pending"; "confirmed"; "in_progress"]
            ∧ (startDate kv.2 ≤ endDate_ ∧ startDate_ ≤ endDate kv.2)
            ∧ excludeBookingId ≠ Some kv.1)
         (map_to_list bookings).

(** The [match] of [startTime] and [endTime]:
    [/^([0-1]?[0-9]|2[0-3]):[0-5][0-9]$/]. *)
Definition between (lo hi c : ascii) : bool :=
  ((nat_of_ascii lo <=? nat_of_ascii c)
   && (nat_of_ascii c <=? nat_of_ascii hi))%nat.

Definition isHHMM (s : string) : bool :=
  match list_ascii_of_string s with
  | [h; c; m1; m2] =>
      between "0" "9" h && Ascii.eqb c ":" && between "0" "5" m1
      && between "0" "9" m2
  | [h1; h2; c; m1; m2] =>
      (between "0" "1" h1 && between "0" "9" h2
       || Ascii.eqb h1 "2" && between "0" "3" h2)
      && Ascii.eqb c ":" && between "0" "5" m1 && between "0" "9" m2
  | _ => false
  end.

Definition tooLong (n : nat) (s : option string) : bool :=
  match s with Some x => (n <? String.length x)%nat | None => false end.

Definition badTime (s : option string) : bool :=
  match s with Some x => negb (isHHMM x) | None => false end.

(** The validators of the schema paths, as [save] runs them before the
    [pre('save')] hook: all of them on a new document, those of the modified
    paths otherwise.  String lengths are counted on ASCII text. *)
Definition validateCreate (b : t) : list string :=
  (if badTime (startTime b)
   then ["Please provide valid start time format (HH:MM)"] else [])
  ++ (if badTime (endTime b)
      then ["Please provide valid end time format (HH:MM)"] else [])
  ++ (if bool_decide (status b ∈ statuses) then []
      else ["Status must be one of: pending, confirmed, in_progress, completed, cancelled, declined"])
  ++ (if Qle_bool 0 (totalPrice b) then []
      else ["Total price cannot be negative"])
  ++ (if Qle_bool 0 (serviceFee b) then []
      else ["Service fee cannot be negative"])
  ++ (if tooLong 500 (notes b)
      then ["Notes cannot exceed 500 characters"] else []).

Definition validateModified (modified : list string) (b : t) : list string :=
  (if bool_decide ("status" ∈ modified) && negb (bool_decide (status b ∈ statuses))
   then ["Status must be one of: pending, confirmed, in_progress, completed, cancelled, declined"]
   else [])
  ++ (if bool_decide ("ownerNotes" ∈ modified) && tooLong 500 (ownerNotes b)
      then ["Owner notes cannot exceed 500 characters"] else [])
  ++ (if bool_decide ("sitterNotes" ∈ modified) && tooLong 500 (sitterNotes b)
      then ["Sitter notes cannot exceed 500 characters"] else []).

(** [bookingSchema.pre('save')]; [now] is the [new Date()] that the hook
    reads for a new document only. *)
Definition preSave (b : t) (isNew : bool) (now : option Z) : Http.Try unit :=
  if bool_decide (endDate b ≤ startDate b)
  then Http.Raise (Http.Throw "Error" "End date must be after start date")
  else if isNew && match now with Some n => startDate b <? n | None => false end
  then Http.Raise (Http.Throw "Error" "Cannot create bookings in the past")
  else Http.Ok ().

(** [save]: validation, hook, then the write under the document's id. *)
Definition save (bookings : gmap string t) (id_ : string) (b : t)
    (isNew : bool) (validation : list string) (now : option Z)
    : Http.Try (gmap string t) :=
  match validation with
  | _ :: _ => Http.Raise (Http.ValidationFailed validation)
  | [] =>
      match preSave b isNew now with
      | Http.Raise e => Http.Raise e
      | Http.Ok _ => Http.Ok (<[id_ := b]> bookings)
      end
  end.

End Booking.

(** ** The database *)

Record Db := mkDb {
  users : gmap string User.t;
  pets : gmap string Pet.t;
  services : gmap string Service.t;
  bookings : gmap string Booking.t
}.

Definition set_bookings (v : gmap string Booking.t) (db : Db) : Db :=
  mkDb (users db) (pets db) (services db) v.

Definition set_services (v : gmap string Service.t) (db : Db) : Db :=
  mkDb (users db) (pets db) v (bookings db).

(** ** Request validation (validation.js): the Joi schema of a booking and
    the [validate] middleware *)

Module Validation.

(** The body of POST /api/bookings, with its four required fields present
    and its dates parsed; [emergencyContact] is only stored. *)
Record BookingBody := mkBody {
  service : string;
  pet : string;
  startDate : Z;
  endDate : Z;
  startTime : option string;
  endTime : option string;
  notes : option string
}.

(** [bookingSchema.validate(body, { abortEarly: false })]: the details, as
    (path, message).  [Joi.date().min(x)] accepts a date equal to [x];
    ['now'] is the reading [now] of the clock. *)
Definition bookingSchema (body : BookingBody) (now : Z)
    : list (string * string) :=
  (if bool_decide (service body = "")
   then [("service", "Service ID is required")] else [])
  ++ (if bool_decide (pet body = "")
      then [("pet", "Pet ID is required")] else [])
  ++ (if startDate body <? now
      then [("startDate", "Start date cannot be in the past")] else [])
  ++ (if endDate body <? startDate body
      then [("endDate", "End date must be after start date")] else [])
  ++ match notes body with
     | Some n =>
         if bool_decide (n = "")
         then [("notes", Http.dq +:+ "notes" +:+ Http.dq
                           +:+ " is not allowed to be empty")]
         else if (500 <? String.length n)%nat
         then [("notes", "Notes cannot exceed 500 characters")]
         else []
     | None => []
     end.

(** [validate(schema)]: answers 400 on an error, else calls [next()]. *)
Definition validate {Doc} (errors : list (string * string))
    : option (Http.Response Doc) :=
  match errors with
  | [] => None
  | first :: rest =>
      let message :=
        match rest with
        | [] => "Validation failed: " +:+ first.2
        | _ => "Validation failed: " +:+ pretty (length errors)
               +:+ " fields have errors"
        end in
      Some (Http.mkResponse 400 "fail" (Some message) (Http.Details errors))
  end.

End Validation.

(** ** Booking controller (bookingController.js) *)

Module BookingController.

Abbreviation Response := (Http.Response Booking.t).

Definition notFound : Response :=
  Http.fail 404 "No booking found with that ID".

Definition slotUnavailable : Response :=
  Http.fail 400 "The requested time slot is not available".

(** [Service.findOne(...).populate('sitter', 'name email')]: the service and
    the [_id] of its populated sitter ([null] when the user is gone). *)
Definition findServicePopulated (db : Db) (serviceId : string)
    : Http.Try (option (Service.t * option string)) :=
  match Service.findOne (services db) serviceId with
  | Http.Raise e => Http.Raise e
  | Http.Ok None => Http.Ok None
  | Http.Ok (Some service) =>
      Http.Ok (Some (service,
        match users db !! Service.sitter service with
        | Some _ => Some (Service.sitter service)
        | None => None
        end))
  end.

(** [Math.abs(end - start)] in milliseconds. *)
Definition span (start end_ : Z) : Q := Qabs (inject_Z (end_ - start)).

(** The price before the fee, by [service.priceType]. *)
Definition basePrice (service : Service.t) (start end_ : Z) : Q :=
  if bool_decide (Service.priceType service = "hourly") then
    let hours := (span start end_ / inject_Z 3600000)%Q in
    Service.price service * inject_Z (Qceiling hours)
  else if bool_decide (Service.priceType service = "daily") then
    let days := Qceiling (span start end_ / inject_Z (1000 * 60 * 60 * 24))%Q in
    Service.price service * inject_Z days
  else if bool_decide (Service.priceType service = "weekly") then
    let weeks := Qceiling (span start end_ / inject_Z (1000 * 60 * 60 * 24 * 7))%Q in
    Service.price service * inject_Z weeks
  else Service.price service.

Definition emptyCheck : Booking.Check := Booking.mkCheck None None [].

(** The object [bookingData] of [createBooking]: the price, the 5% service
    fee and the initial status. *)
Definition bookingData (user : Caller) (sitterId : string)
    (service : Service.t) (body : Validation.BookingBody) : Booking.t :=
  let start := Validation.startDate body in
  let end_ := Validation.endDate body in
  let totalPrice := basePrice service start end_ in
  let serviceFee := (totalPrice * (5 # 100))%Q in
  Booking.mk (id user) sitterId (Validation.service body)
    (Validation.pet body) start end_
    (Validation.startTime body) (Validation.endTime body)
    (if Service.instantBooking service then "confirmed" else "pending")
    (totalPrice + serviceFee)%Q serviceFee (Validation.notes body)
    None None emptyCheck emptyCheck [] None.

(** [createBooking]: POST /api/bookings.  [newId] is the [_id] given to the
    created document and [now] the [new Date()] of the [pre('save')] hook. *)
Definition createBooking (db : Db) (user : Caller)
    (body : Validation.BookingBody) (newId : string) (now : Z)
    : Response * Db :=
  let serviceId := Validation.service body in
  let petId := Validation.pet body in
  let startDate := Validation.startDate body in
  let endDate := Validation.endDate body in
  match findServicePopulated db serviceId with
  | Http.Raise error => (Http.errorMiddleware error, db)
  | Http.Ok None => (Http.fail 404 "Service not found or not available", db)
  | Http.Ok (Some (service, sitter)) =>
  match Pet.findOne (pets db) petId (id user) with
  | Http.Raise error => (Http.errorMiddleware error, db)
  | Http.Ok None => (Http.fail 404 "Pet not found or does not belong to you", db)
  | Http.Ok (Some pet) =>
  if negb (bool_decide (Pet.species pet ∈ Service.petTypes service)) then
    (Http.fail 400 ("This service does not support " +:+ Pet.species pet +:+ "s"), db)
  else
  match sitter with
  | None =>
      (Http.errorMiddleware (Http.Throw "TypeError"
         "Cannot read properties of null (reading '_id')"), db)
  | Some sitterId =>
  let conflicts :=
    Booking.findConflicts (bookings db) sitterId startDate endDate None in
  if (0 <? length conflicts)%nat then (slotUnavailable, db)
  else
  let bookingData := bookingData user sitterId service body in
  match Booking.save (bookings db) newId bookingData true
          (Booking.validateCreate bookingData) (Some now) with
  | Http.Raise error => (Http.errorMiddleware error, db)
  | Http.Ok bookings' =>
      (Http.mkResponse 201 "success" None (Http.One bookingData),
       set_bookings bookings' db)
  end end end end.

(** A filter that the query may or may not carry. *)
Definition matches (filter_ : option string) (value : string) : bool :=
  match filter_ with
  | Some x => bool_decide (value = x)
  | None => true
  end.

(** [Booking.findOne(query)] of the status and check-in handlers: [_id] and
    the role-dependent [owner] or [sitter] filter. *)
Definition findOne (bookings : gmap string Booking.t) (id_ : string)
    (owner sitter : option string) : Http.Try (option Booking.t) :=
  if ObjectId.isValid id_ then
    Http.Ok (match bookings !! id_ with
             | Some b =>
                 if matches owner (Booking.owner b)
                    && matches sitter (Booking.sitter b)
                 then Some b else None
             | None => None
             end)
  else Http.Raise ObjectId.castError.

(** The object [validTransitions]; a key that is not a status gives
    [undefined]. *)
Definition validTransitions (from : string) : option (list string) :=
  if bool_decide (from = "pending") then Some ["confirmed"; "declined"; "cancelled"]
  else if bool_decide (from = "confirmed") then Some ["in_progress"; "cancelled"]
  else if bool_decide (from = "in_progress") then Some ["completed"; "cancelled"]
  else if bool_decide (from = "completed") then Some []
  else if bool_decide (from = "cancelled") then Some []
  else if bool_decide (from = "declined") then Some []
  else None.

(** A string is truthy unless empty. *)
Definition truthy (s : option string) : bool :=
  match s with Some x => negb (bool_decide (x = "")) | None => false end.

(** The role branches at the head of [updateBookingStatus]: an early 403,
    or the [owner] and [sitter] filters added to the query. *)
Definition statusQuery (user : Caller) (status : string)
    : Response + (option string * option string) :=
  if bool_decide (role user = "owner") then
    if negb (bool_decide (status = "cancelled"))
    then inl (Http.fail 403 "Pet owners can only cancel bookings")
    else inr (Some (id user), None)
  else if bool_decide (role user = "sitter") then
    let allowedStatuses := ["confirmed"; "declined"; "in_progress"; "completed"] in
    if negb (bool_decide (status ∈ allowedStatuses))
    then inl (Http.fail 403 "Invalid status update for sitter")
    else inr (None, Some (id user))
  else inr (None, None).

(** [updateBookingStatus]: PATCH /api/bookings/:id/status.  [clock 0] is the
    [new Date()] of [canBeCancelled], [clock 1] the one stored in
    [cancelledAt], [clock 2] the one of [calculateRefund]. *)
Definition updateBookingStatus (db : Db) (user : Caller) (id_ : string)
    (status : string) (notes : option string) (clock : nat → Z)
    : Response * Db :=
  match statusQuery user status with
  | inl forbidden => (forbidden, db)
  | inr (owner, sitter) =>
  match findOne (bookings db) id_ owner sitter with
  | Http.Raise error => (Http.errorMiddleware error, db)
  | Http.Ok None => (notFound, db)
  | Http.Ok (Some booking) =>
  match validTransitions (Booking.status booking) with
  | None =>
      (Http.errorMiddleware (Http.Throw "TypeError"
         "Cannot read properties of undefined (reading 'includes')"), db)
  | Some allowed =>
  if negb (bool_decide (status ∈ allowed)) then
    (Http.fail 400 ("Cannot change status from " +:+ Booking.status booking
                    +:+ " to " +:+ status), db)
  else
  if bool_decide (status = "cancelled")
     && negb (Booking.canBeCancelled booking (clock 0%nat)) then
    (Http.fail 400 "Booking cannot be cancelled at this time", db)
  else
  let '(booking, modified) :=
    if bool_decide (status = "cancelled") then
      (Booking.set_cancellation
         (Some (Booking.mkCancellation (id user) (clock 1%nat) notes
                  (Booking.calculateRefund booking (clock 2%nat))))
         booking, ["cancellation"])
    else (booking, []) in
  let booking := Booking.set_status status booking in
  let '(booking, modified) :=
    if bool_decide (role user = "owner") && truthy notes
    then (Booking.set_ownerNotes notes booking, "ownerNotes" :: modified)
    else if bool_decide (role user = "sitter") && truthy notes
    then (Booking.set_sitterNotes notes booking, "sitterNotes" :: modified)
    else (booking, modified) in
  match Booking.save (bookings db) id_ booking false
          (Booking.validateModified ("status" :: modified) booking) None with
  | Http.Raise error => (Http.errorMiddleware error, db)
  | Http.Ok bookings' =>
      let db := set_bookings bookings' db in
      let db :=
        if bool_decide (status = "confirmed")
        then set_services
               (Service.incTotalBookings (services db) (Booking.service booking)) db
        else db in
      (Http.mkResponse 200 "success" None (Http.One booking), db)
  end end end end.

(** [addBookingUpdate]: POST /api/bookings/:id/updates *)
Definition addBookingUpdate (db : Db) (user : Caller) (id_ : string)
    (message : option string) (photos : option (list string)) (now : Z)
    : Response * Db :=
  match findOne (bookings db) id_ None (Some (id user)) with
  | Http.Raise error => (Http.errorMiddleware error, db)
  | Http.Ok found =>
  match found with
  | Some booking =>
      if bool_decide (Booking.status booking = "in_progress") then
        let update := Booking.mkUpdate now message (default [] photos) (id user) in
        let booking :=
          Booking.set_updates (Booking.updates booking ++ [update]) booking in
        match Booking.save (bookings db) id_ booking false
                (Booking.validateModified ["updates"] booking) None with
        | Http.Raise error => (Http.errorMiddleware error, db)
        | Http.Ok bookings' =>
            (Http.mkResponse 200 "success" None (Http.One booking),
             set_bookings bookings' db)
        end
      else (Http.fail 404 "No active booking found with that ID", db)
  | None => (Http.fail 404 "No active booking found with that ID", db)
  end end.

(** [s.includes(sub)] *)
Definition includes (s sub : string) : bool :=
  match String.index 0 sub s with Some _ => true | None => false end.

(** [checkInOut]: POST /api/bookings/:id/checkin and .../checkout; [path] is
    [req.path] and [now] the [new Date()] of [checkData]. *)
Definition checkInOut (db : Db) (user : Caller) (path id_ : string)
    (notes : option string) (photos : option (list string)) (now : Z)
    : Response * Db :=
  let isCheckIn := includes path "checkin" in
  match findOne (bookings db) id_ None (Some (id user)) with
  | Http.Raise error => (Http.errorMiddleware error, db)
  | Http.Ok None => (notFound, db)
  | Http.Ok (Some booking) =>
  let checkData := Booking.mkCheck (Some now) notes (default [] photos) in
  let saveAndSend (booking : Booking.t) :=
    match Booking.save (bookings db) id_ booking false
            (Booking.validateModified ["status"] booking) None with
    | Http.Raise error => (Http.errorMiddleware error, db)
    | Http.Ok bookings' =>
        (Http.mkResponse 200 "success" None (Http.One booking),
         set_bookings bookings' db)
    end in
  if isCheckIn then
    if bool_decide (is_Some (Booking.time (Booking.checkIn booking))) then
      (Http.fail 400 "Already checked in for this booking", db)
    else
      saveAndSend
        (Booking.set_status "in_progress" (Booking.set_checkIn checkData booking))
  else
    if negb (bool_decide (is_Some (Booking.time (Booking.checkIn booking)))) then
      (Http.fail 400 "Must check in before checking out", db)
    else if bool_decide (is_Some (Booking.time (Booking.checkOut booking))) then
      (Http.fail 400 "Already checked out for this booking", db)
    else
      saveAndSend
        (Booking.set_status "completed" (Booking.set_checkOut checkData booking))
  end.

End BookingController.

(** bookingRoutes.js: [protect] has resolved the caller; the route
    middlewares run in order.  [clock n] is the n-th reading of the clock
    while the request is served. *)

Module BookingRoutes.

Definition post (db : Db) (user : Caller) (body : Validation.BookingBody)
    (newId : string) (clock : nat → Z) : BookingController.Response * Db :=
  match restrictTo ["owner"] user with
  | Some denied => (denied, db)
  | None =>
      match Validation.validate (Validation.bookingSchema body (clock 0%nat)) with
      | Some invalid => (invalid, db)
      | None => BookingController.createBooking db user body newId (clock 1%nat)
      end
  end.

Definition patchStatus (db : Db) (user : Caller) (id_ status : string)
    (notes : option string) (clock : nat → Z)
    : BookingController.Response * Db :=
  BookingController.updateBookingStatus db user id_ status notes clock.

Definition checkin (db : Db) (user : Caller) (id_ : string)
    (notes : option string) (photos : option (list string)) (now : Z)
    : BookingController.Response * Db :=
  match restrictTo ["sitter"] user with
  | Some denied => (denied, db)
  | None =>
      BookingController.checkInOut db user ("/" +:+ id_ +:+ "/checkin") id_
        notes photos now
  end.

Definition checkout (db : Db) (user : Caller) (id_ : string)
    (notes : option string) (photos : option (list string)) (now : Z)
    : BookingController.Response * Db :=
  match restrictTo ["sitter"] user with
  | Some denied => (denied, db)
  | None =>
      BookingController.checkInOut db user ("/" +:+ id_ +:+ "/checkout") id_
        notes photos now
  end.

End BookingRoutes.

(** ** The transition table as a relation: [s'] is a status that
    [validTransitions] allows after [s]. *)
Definition allowedTransition (s s' : string) : Prop :=
  ∃ allowed, BookingController.validTransitions s = Some allowed ∧ s' ∈ allowed.

(** ** Reading a booking (bookingController.js and the virtuals and
    methods of Booking.js) *)

Module BookingViews.

(** [Math.round(x)]: the nearest integer, halves upwards. *)
Definition round (x : Q) : Z := Qfloor (x + (1 # 2)).

(** The virtual [durationHours]; both dates are required, so always set. *)
Definition durationHours (b : Booking.t) : Q :=
  Qabs (inject_Z (Booking.endDate b - Booking.startDate b)) / inject_Z 3600000.

(** The virtual [durationDays]. *)
Definition durationDays (b : Booking.t) : Z :=
  Qceiling (Qabs (inject_Z (Booking.endDate b - Booking.startDate b))
            / inject_Z (1000 * 60 * 60 * 24)).

(** The virtual [durationString]. *)
Definition durationString (b : Booking.t) : string :=
  let hours := durationHours b in
  if Booking.gt 24 hours then
    pretty (round hours) +:+ " hour"
      +:+ (if bool_decide (round hours ≠ 1) then "s" else "")
  else
    let days := durationDays b in
    pretty days +:+ " day" +:+ (if bool_decide (days ≠ 1) then "s" else "").

(** [bookingSchema.methods.canBeModified]; [now] is its [new Date()]. *)
Definition canBeModified (b : Booking.t) (now : Z) : bool :=
  if bool_decide (Booking.status b ≠ "pending")
     && bool_decide (Booking.status b ≠ "confirmed")
  then false
  else Booking.gt (Booking.hoursUntilStart b now) 48.

(** [bookingSchema.methods.canBeReviewed]; a booking model without the
    [review] reference: [hasReview] says whether it is set. *)
Definition canBeReviewed (b : Booking.t) (hasReview : bool) : bool :=
  bool_decide (Booking.status b = "completed") && negb hasReview.

(** [getBooking]: GET /api/bookings/:id, the role-scoped lookup. *)
Definition getBooking (db : Db) (user : Caller) (id_ : string)
    : BookingController.Response :=
  let owner := if bool_decide (role user = "owner") then Some (id user) else None in
  let sitter :=
    if bool_decide (role user = "owner") then None
    else if bool_decide (role user = "sitter") then Some (id user) else None in
  match BookingController.findOne (bookings db) id_ owner sitter with
  | Http.Raise error => Http.errorMiddleware error
  | Http.Ok None => BookingController.notFound
  | Http.Ok (Some booking) =>
      Http.mkResponse 200 "success" None (Http.One booking)
  end.

End BookingViews.

(** ** Double booking: two bookings of one sitter that both occupy the
    calendar and whose intervals meet. *)

Definition blocking (status : string) : Prop :=
  status ∈ ["pending"; "confirmed"; "in_progress"].



(** What a handler leaves of a booking when it rewrites it: the parties,
    the reservation and its price. *)
Definition sameReservation (b b' : Booking.t) : Prop :=
  Booking.owner b' = Booking.owner b ∧ Booking.sitter b' = Booking.sitter b
  ∧ Booking.service b' = Booking.service b ∧ Booking.pet b' = Booking.pet b
  ∧ Booking.startDate b' = Booking.startDate b
  ∧ Booking.endDate b' = Booking.endDate b
  ∧ Booking.totalPrice b' = Booking.totalPrice b
  ∧ Booking.serviceFee b' = Booking.serviceFee b.

(** ** Pet controller, continued: the list and the photo uploads *)

Module PetUploads.

(** [getPets]: GET /api/pets, the caller's active pets, newest first.
    [createdAt] gives the creation timestamp that Mongoose keeps on each
    document ([timestamps: true]); the response carries the list and, as
    [results], its length. *)
Definition find (pets : gmap string Pet.t) (owner : string)
    : list (string * Pet.t) :=
  filter (λ kv : string * Pet.t,
            Pet.owner kv.2 = owner ∧ Pet.isActive kv.2 = true)
         (map_to_list pets).

Definition newestFirst (createdAt : string → Z) (x y : string * Pet.t) : Prop :=
  createdAt y.1 ≤ createdAt x.1.

#[global] Instance newestFirst_dec (createdAt : string → Z) (x y : string * Pet.t) :
  Decision (newestFirst createdAt x y).
Proof. unfold newestFirst. apply _. Defined.

Definition getPets (pets : gmap string Pet.t) (createdAt : string → Z)
    (user : Caller) : Http.Response (list (string * Pet.t)) * nat :=
  let pets := merge_sort (newestFirst createdAt) (find pets (id user)) in
  (Http.mkResponse 200 "success" None (Http.One pets), length pets).



End PetUploads.

(** ** Accounts: authMiddleware.js and the rest of authController.js *)

Module Account.

Definition set_isActive (v : bool) (u : User.t) : User.t :=
  User.mk (User.name u) (User.email u) (User.password u) (User.role u) v
    (User.lastLogin u).

(** [req.user] as the handlers read it: the [id] and the [role] of the
    document that [protect] has loaded. *)
Definition callerOf (uid : string) (u : User.t) : Caller :=
  {| id := uid; role := User.role u |}.

(** [errorMiddleware] with its branches on the JWT names, for the handlers
    that sign tokens. *)
Definition errorMiddleware {Doc} (err : Http.Exn) : Http.Response Doc :=
  let error : option Z * string := (None, Http.msg err) in
  let error :=
    if bool_decide (Http.name err = "CastError")
    then (Some 404, "Resource not found") else error in
  let error :=
    if bool_decide (Http.name err = "ValidationError")
    then (Some 400, Http.join ", " (Http.errors err)) else error in
  let error :=
    if bool_decide (Http.name err = "JsonWebTokenError")
    then (Some 401, "Invalid token. Please log in again!") else error in
  let error :=
    if bool_decide (Http.name err = "TokenExpiredError")
    then (Some 401, "Your token has expired! Please log in again.") else error in
  let statusCode := default 500 error.1 in
  let message := if bool_decide (error.2 = "") then "Server Error" else error.2 in
  Http.mkResponse statusCode
    (if (400 <=? statusCode) && (statusCode <? 500) then "fail" else "error")
    (Some message) Http.NoData.

(** [s.split(sep)] for a one-character separator. *)
Fixpoint split (sep : ascii) (s : string) : list string :=
  match s with
  | EmptyString => [EmptyString]
  | String c r =>
      if Ascii.eqb c sep then EmptyString :: split sep r
      else match split sep r with
           | x :: xs => String c x :: xs
           | [] => [String c EmptyString]
           end
  end.

(** The token that [protect] reads off the [Authorization] header:
    [undefined] unless the header starts with [Bearer], else the second of
    its space-separated pieces. *)
Definition bearer (authorization : option string) : option string :=
  match authorization with
  | Some header =>
      if negb (bool_decide (header = "")) && String.prefix "Bearer" header
      then split " " header !! 1%nat
      else None
  | None => None
  end.

Section Handlers.

(** The libraries: [jwt.verify], which throws or gives the [id] claim of the
    payload; [jwt.sign] on the claims [id], [email], [role]; Mongoose's cast
    of the [email] of a query filter; [String.prototype.toLowerCase];
    [bcrypt.compare]. *)
Variable jwtVerify : string → Http.Try (option string).
Variable jwtSign : string → string → string → Http.Try string.
Variable castEmail : string → string.
Variable toLowerCase : string → string.
Variable bcryptCompare : string → string → bool.

(** [protect]: a response, or [next()] with [req.user] set to the loaded
    document, which carries no password ([select: false]). *)
Definition protect {Doc} (users : gmap string User.t)
    (authorization : option string) : Http.Response Doc + (string * User.t) :=
  let token := bearer authorization in
  if negb (BookingController.truthy token) then
    inl (Http.fail 401 "You are not logged in! Please log in to get access.")
  else
    let caught (error : Http.Exn) : Http.Response Doc :=
      if bool_decide (Http.name error = "JsonWebTokenError")
      then Http.fail 401 "Invalid token. Please log in again!"
      else if bool_decide (Http.name error = "TokenExpiredError")
      then Http.fail 401 "Your token has expired! Please log in again."
      else Http.mkResponse 500 "error"
             (Some "Something went wrong during authentication") Http.NoData in
    match jwtVerify (default "" token) with
    | Http.Raise error => inl (caught error)
    | Http.Ok decoded =>
        let found : Http.Try (option User.t) :=
          match decoded with
          | None => Http.Ok None
          | Some uid =>
              if ObjectId.isValid uid then Http.Ok (users !! uid)
              else Http.Raise ObjectId.castError
          end in
        match found with
        | Http.Raise error => inl (caught error)
        | Http.Ok None =>
            inl (Http.fail 401
                   "The user belonging to this token no longer exists.")
        | Http.Ok (Some currentUser) =>
            if negb (User.isActive currentUser) then
              inl (Http.fail 401
                     "Your account has been deactivated. Please contact support.")
            else inr (default "" decoded, User.set_password None currentUser)
        end
    end.

(** [deleteMe]: DELETE /api/auth/me,
    [User.findByIdAndUpdate(req.user.id, { isActive: false })]. *)
Definition deleteMe (users : gmap string User.t) (user : Caller)
    : AuthController.Response * gmap string User.t :=
  if ObjectId.isValid (id user) then
    (Http.mkResponse 200 "success" (Some "Account deactivated successfully")
       Http.NoData,
     alter (set_isActive false) (id user) users)
  else (errorMiddleware ObjectId.castError, users).

(** [createSendToken(user, statusCode, res, message)] *)
Definition createSendToken (uid : string) (user : User.t) (statusCode : Z)
    (message : option string) : Http.Try AuthController.Response :=
  match jwtSign uid (User.email user) (User.role user) with
  | Http.Raise e => Http.Raise e
  | Http.Ok token =>
      let user := User.set_password None user in
      Http.Ok (Http.mkResponse statusCode "success" message
                 (Http.One (token, user)))
  end.

(** [User.findOne({ email: email.toLowerCase(), isActive: false })
    .select('+password')] *)
Definition findDeactivated (users : gmap string User.t) (email : string)
    : option (string * User.t) :=
  head (filter (λ kv : string * User.t,
                  User.email kv.2 = castEmail (toLowerCase email)
                  ∧ User.isActive kv.2 = false)
               (map_to_list users)).

(** [reactivateAccount]: PUT /api/auth/reactivate, with the [email] and
    [password] fields of the body as texts.  [bcrypt.compare] rejects a
    missing hash; the account is written before the token is signed. *)
Definition reactivateAccount (users : gmap string User.t)
    (email password : option string)
    : AuthController.Response * gmap string User.t :=
  if negb (BookingController.truthy email)
     || negb (BookingController.truthy password)
  then (Http.fail 400 "Please provide email and password", users)
  else
    let email := default "" email in
    let password := default "" password in
    match findDeactivated users email with
    | None =>
        (Http.fail 404 "No deactivated account found with that email address",
         users)
    | Some (uid, user) =>
        match User.password user with
        | None =>
            (errorMiddleware
               (Http.Throw "Error" "Illegal arguments: string, undefined"),
             users)
        | Some hash =>
            if negb (bcryptCompare password hash)
            then (Http.fail 401 "Invalid password", users)
            else
              let users := alter (set_isActive true) uid users in
              match users !! uid with
              | None =>
                  (errorMiddleware (Http.Throw "TypeError"
                     "Cannot read properties of null (reading 'generateAuthToken')"),
                   users)
              | Some reactivatedUser =>
                  match createSendToken uid reactivatedUser 200
                          (Some "Account reactivated successfully! Welcome back.")
                  with
                  | Http.Raise error => (errorMiddleware error, users)
                  | Http.Ok response => (response, users)
                  end
              end
        end
    end.

(** [bcrypt.hash(password, 12)], as the [pre('save')] hook of the user
    schema calls it. *)
Variable bcryptHash : string → string.

(** [updatePassword]: PUT /api/auth/updatePassword, with the two fields of
    the body as texts.  [save] validates the modified [password] (its
    [minlength]) and the hook then hashes it; assigning the text that is
    already stored modifies nothing. *)
Definition updatePassword (users : gmap string User.t) (user : Caller)
    (currentPassword newPassword : option string)
    : AuthController.Response * gmap string User.t :=
  if negb (BookingController.truthy currentPassword)
     || negb (BookingController.truthy newPassword)
  then (Http.fail 400 "Please provide current password and new password",
        users)
  else
    let currentPassword := default "" currentPassword in
    let newPassword := default "" newPassword in
    if negb (ObjectId.isValid (id user))
    then (errorMiddleware ObjectId.castError, users)
    else
    match users !! id user with
    | None =>
        (errorMiddleware (Http.Throw "TypeError"
           "Cannot read properties of null (reading 'correctPassword')"),
         users)
    | Some account =>
        match User.password account with
        | None =>
            (errorMiddleware
               (Http.Throw "Error" "Illegal arguments: string, undefined"),
             users)
        | Some hash =>
            if negb (bcryptCompare currentPassword hash)
            then (Http.fail 401 "Your current password is incorrect", users)
            else
              let isModified := negb (bool_decide (newPassword = hash)) in
              if isModified && (String.length newPassword <? 6)%nat
              then (errorMiddleware (Http.ValidationFailed
                      ["Password must be at least 6 characters"]), users)
              else
                let account :=
                  if isModified
                  then User.set_password (Some (bcryptHash newPassword)) account
                  else account in
                let users := <[id user := account]> users in
                match createSendToken (id user) account 200 None with
                | Http.Raise error => (errorMiddleware error, users)
                | Http.Ok response => (response, users)
                end
        end
    end.

End Handlers.

(** The [unique] index on [email]. *)
Definition uniqueEmails (users : gmap string User.t) : Prop :=
  ∀ i j ui uj, users !! i = Some ui → users !! j = Some uj →
    User.email ui = User.email uj → i = j.

End Account.

(** ** Service controller: reading and deleting a service *)

Module ServiceController.

Abbreviation Response := (Http.Response Service.t).

Definition notFound : Response := Http.fail 404 "No service found with that ID".

Definition set_isActive (v : bool) (s : Service.t) : Service.t :=
  Service.mk (Service.sitter s) (Service.title s) (Service.price s)
    (Service.priceType s) (Service.petTypes s) (Service.instantBooking s)
    (Service.totalBookings s) v.


(** [Service.findOne({ _id: req.params.id, sitter: req.user.id })]: the
    filter does not mention [isActive]. *)
Definition findOwn (services : gmap string Service.t) (id_ sitter : string)
    : Http.Try (option Service.t) :=
  if ObjectId.isValid id_ then
    Http.Ok (match services !! id_ with
             | Some s =>
                 if bool_decide (Service.sitter s = sitter) then Some s else None
             | None => None
             end)
  else Http.Raise ObjectId.castError.

(** [deleteService]: the soft delete; no validator or hook of the schema
    concerns [isActive], the one modified path. *)
Definition deleteService (services : gmap string Service.t) (user : Caller)
    (id_ : string) : Response * gmap string Service.t :=
  match findOwn services id_ (id user) with
  | Http.Raise error => (Http.errorMiddleware error, services)
  | Http.Ok None => (notFound, services)
  | Http.Ok (Some service) =>
      let service := set_isActive false service in
      (Http.mkResponse 204 "success" None Http.Null,
       <[id_ := service]> services)
  end.

End ServiceController.

(** serviceRoutes.js: DELETE /api/services/:id/manage, behind [protect] and
    [restrictTo('sitter')]. *)

Module ServiceRoutes.

Definition delete (services : gmap string Service.t) (user : Caller)
    (id_ : string) : ServiceController.Response * gmap string Service.t :=
  match restrictTo ["sitter"] user with
  | Some denied => (denied, services)
  | None => ServiceController.deleteService services user id_
  end.

End ServiceRoutes.

Definition set_pets (v : gmap string Pet.t) (db : Db) : Db :=
  mkDb (users db) v (services db) (bookings db).


(** ** The rating of a service (Service.js) *)

Module Rating.

(** The [rating] sub-document; the schema defaults are 0 and 0. *)
Record t := mk {
  average : Q;
  count : Z
}.

Definition initial : t := mk 0 0.

(** [serviceSchema.methods.updateRating], the assignments before [save]:
    [None] where the quotient is not a finite number (a division by 0). *)
Definition updateRating (rating : t) (newRating : Q) : option t :=
  let totalRating := (average rating * inject_Z (count rating) + newRating)%Q in
  let count := count rating + 1 in
  if bool_decide (count = 0) then None
  else Some (mk (totalRating / inject_Z count) count).

(** The validators [min: 0] and [max: 5] of [rating.average], which the
    [save] of [updateRating] runs. *)
Definition valid (rating : t) : bool :=
  Qle_bool 0 (average rating) && Qle_bool (average rating) 5.

End Rating.


(** ** Sample data *)

Module Sample.

Definition alice : Caller := {| id := "64b000000000000000000001"; role := "owner" |}.
Definition bob : Caller := {| id := "64b000000000000000000002"; role := "owner" |}.
Definition carol : Caller := {| id := "64b000000000000000000003"; role := "sitter" |}.
Definition daveId : string := "64b000000000000000000004".

Definition rexId : string := "64b0000000000000000000a1".

Definition rex : Pet.t :=
  Pet.mk (id alice) "Rex" "dog"
    ["http://localhost:8001/uploads/pets/a.jpg";
     "http://localhost:8001/uploads/pets/b.jpg";
     "http://localhost:8001/uploads/pets/c.jpg"] true.

Definition pets : gmap string Pet.t := {[ rexId := rex ]}.

(** Stand-ins for the libraries, to run the login handler; Dave's account
    is deactivated. *)
Definition castEmail (e : string) : string := e.
Definition bcryptCompare (candidate hash : string) : bool :=
  String.eqb ("hash:" +:+ candidate) hash.
Definition jwtSign (uid email role_ : string) : Http.Try string :=
  Http.Ok ("jwt." +:+ uid).

Definition users : gmap string User.t :=
  {[ id alice := User.mk "Alice" "alice@example.com" (Some "hash:wonderland")
                   "owner" true None;
     id bob := User.mk "Bob" "bob@example.com" (Some "hash:builder")
                 "owner" true None;
     id carol := User.mk "Carol" "carol@example.com" (Some "hash:sitting")
                   "sitter" true None;
     daveId := User.mk "Dave" "dave@example.com" (Some "hash:retired")
                 "owner" false None ]}.

(** Carol's services: walks at 10 per hour, and boarding at 20 per day with
    instant booking. *)
Definition walkId : string := "64b0000000000000000000b1".
Definition boardId : string := "64b0000000000000000000b2".

Definition walk : Service.t :=
  Service.mk (id carol) "Dog walking" 10 "hourly" ["dog"] false 0 true.
Definition board : Service.t :=
  Service.mk (id carol) "Boarding" 20 "daily" ["dog"; "cat"] true 7 true.

Definition minute : Z := 60 * 1000.
Definition hour : Z := 60 * minute.

(** A clock at 1 000 000 ms that advances by one millisecond per reading. *)
Definition clock (n : nat) : Z := 1000000 + Z.of_nat n.

(** A 90-minute walk, starting three days from the clock's origin. *)
Definition start : Z := 1000000 + 72 * hour.

Definition walkBody : Validation.BookingBody :=
  Validation.mkBody walkId rexId start (start + 90 * minute) None None None.

(** The same walk with [endDate] equal to [startDate]. *)
Definition emptyBody : Validation.BookingBody :=
  Validation.mkBody walkId rexId start start None None None.

Definition boardBody : Validation.BookingBody :=
  Validation.mkBody boardId rexId start (start + 48 * hour) None None None.

Definition db : Db := mkDb users pets {[ walkId := walk; boardId := board ]} ∅.

Definition bookingId : string := "64b0000000000000000000c1".

(** The database after Alice has booked the walk: the booking is pending. *)
Definition booked : Db :=
  (BookingRoutes.post db alice walkBody bookingId clock).2.

(** ... and after Alice has then cancelled it. *)
Definition cancelled : Db :=
  (BookingRoutes.patchStatus booked alice bookingId "cancelled" None clock).2.

End Sample.


(** ** Further sample data *)

Module Example.

Import Sample.

(** Stand-ins for the remaining libraries: a token "jwt.<id>" verifies to
    the claim [id]; lower-casing of ASCII text. *)
Definition jwtVerify (token : string) : Http.Try (option string) :=
  if String.prefix "jwt." token
  then Http.Ok (Some (String.substring 4 (String.length token - 4) token))
  else Http.Raise (Http.Throw "JsonWebTokenError" "jwt malformed").

Definition lower (c : ascii) : ascii :=
  let n := nat_of_ascii c in
  if ((65 <=? n) && (n <=? 90))%nat then ascii_of_nat (n + 32) else c.

Fixpoint toLowerCase (s : string) : string :=
  match s with
  | EmptyString => EmptyString
  | String c r => String (lower c) (toLowerCase r)
  end.


End Example.

(** * Properties *)

(** ** Pet registry *)

Section PetRegistry.

Implicit Types (pets : gmap string Pet.t) (user : Caller) (pet : Pet.t).

Lemma restrictTo_owner {Doc} user :
  role user = "owner" → restrictTo (Doc := Doc) ["owner"] user = None.
Proof. intros Hr. unfold restrictTo. rewrite Hr. reflexivity. Qed.

Lemma findOne_found pets user id_ pet :
  ObjectId.isValid id_ = true → pets !! id_ = Some pet →
  Pet.owner pet = id user → Pet.isActive pet = true →
  Pet.findOne pets id_ (id user) = Http.Ok (Some pet).
Proof.
  intros Hv Hl Ho Ha. unfold Pet.findOne. rewrite Hv, Hl, Ha.
  rewrite bool_decide_eq_true_2 by done. reflexivity.
Qed.

Lemma findOne_Some pets id_ o pet :
  Pet.findOne pets id_ o = Http.Ok (Some pet) →
  pets !! id_ = Some pet ∧ Pet.owner pet = o ∧ Pet.isActive pet = true.
Proof.
  unfold Pet.findOne. destruct (ObjectId.isValid id_); [|discriminate].
  destruct (pets !! id_) as [p|]; [|discriminate].
  destruct (bool_decide (Pet.owner p = o)) eqn:Ho; simpl; [|discriminate].
  destruct (Pet.isActive p) eqn:Ha; [|discriminate].
  intros [= <-]. apply bool_decide_eq_true_1 in Ho. done.
Qed.

Lemma findOne_other_owner pets id_ o pet :
  pets !! id_ = Some pet → Pet.owner pet ≠ o →
  Pet.findOne pets id_ o = Http.Ok None
  ∨ Pet.findOne pets id_ o = Http.Raise ObjectId.castError.
Proof.
  intros Hl Ho. unfold Pet.findOne. rewrite Hl.
  destruct (ObjectId.isValid id_); [left|right; reflexivity].
  rewrite bool_decide_eq_false_2 by done. reflexivity.
Qed.

End PetRegistry.

(** C7. GET /pets/:id, for an authenticated owner: the pet is returned only
    if it is stored under that id, active and owned by the caller (and it
    is returned whenever that holds and the id is an ObjectId); every other
    request is answered 404 NotFound, never 403 Forbidden, in particular
    when the pet exists and belongs to another owner. *)
Theorem getPet_NotFound_never_Forbidden
    (pets : gmap string Pet.t) (user : Caller) (id_ : string) :
  role user = "owner" →
  let r := PetRoutes.get pets user id_ in
  (Http.isSuccess r →
     ∃ pet, Http.data r = Http.One pet ∧ pets !! id_ = Some pet
            ∧ Pet.isActive pet = true ∧ Pet.owner pet = id user)
  ∧ (∀ pet, ObjectId.isValid id_ = true → pets !! id_ = Some pet →
            Pet.isActive pet = true → Pet.owner pet = id user →
            r = Http.mkResponse 200 "success" None (Http.One pet))
  ∧ (¬ Http.isSuccess r → Http.isNotFound r)
  ∧ ¬ Http.isForbidden r
  ∧ (∀ pet, pets !! id_ = Some pet → Pet.owner pet ≠ id user →
            Http.isNotFound r).
Proof.
  intros Hrole r. subst r. unfold PetRoutes.get.
  rewrite (restrictTo_owner user Hrole). unfold PetController.getPet.
  repeat split.
  - destruct (Pet.findOne pets id_ (id user)) as [[pet|]|e] eqn:Hf.
    + intros _. apply findOne_Some in Hf as (Hl & Ho & Ha). eauto 10.
    + intros H. discriminate H.
    + intros H. unfold Pet.findOne in Hf.
      destruct (ObjectId.isValid id_); [discriminate|].
      injection Hf as <-. discriminate H.
  - intros pet Hv Hl Ha Ho. by rewrite (findOne_found pets user id_ pet).
  - destruct (Pet.findOne pets id_ (id user)) as [[pet|]|e] eqn:Hf.
    + intros H. exfalso. apply H. reflexivity.
    + reflexivity.
    + intros _. unfold Pet.findOne in Hf.
      destruct (ObjectId.isValid id_); [discriminate|].
      injection Hf as <-. reflexivity.
  - destruct (Pet.findOne pets id_ (id user)) as [[pet|]|e] eqn:Hf;
      try discriminate.
    unfold Pet.findOne in Hf.
    destruct (ObjectId.isValid id_); [discriminate|].
    injection Hf as <-. discriminate.
  - intros pet Hl Ho.
    destruct (findOne_other_owner pets id_ (id user) pet Hl Ho) as [-> | ->];
      reflexivity.
Qed.

Lemma getPet_NotFound_never_Forbidden_witness :
  role Sample.bob = "owner"
  ∧ Sample.pets !! Sample.rexId = Some Sample.rex
  ∧ Http.isNotFound (PetRoutes.get Sample.pets Sample.bob Sample.rexId).
Proof.
  split; [reflexivity|]. split; [reflexivity|].
  refine (proj2 (proj2 (proj2 (proj2
    (getPet_NotFound_never_Forbidden Sample.pets Sample.bob Sample.rexId _))))
    Sample.rex _ _).
  - reflexivity.
  - reflexivity.
  - discriminate.
Defined.









(** ** Login *)

Section LoginProperties.

Variable castEmail : string → string.
Variable bcryptCompare : string → string → bool.
Variable jwtSign : string → string → string → Http.Try string.

Local Abbreviation login :=
  (AuthController.login castEmail bcryptCompare jwtSign).
Local Abbreviation Refused :=
  (AuthController.Refused castEmail bcryptCompare).

Lemma login_refused users email password now :
  Refused users email password →
  login users email password now = (AuthController.invalidLogin, users).
Proof.
  unfold login, AuthController.login, AuthController.findByCredentials.
  intros [Hnone | uid user Hsome Hpw | uid user Hsome Hact].
  - by rewrite Hnone.
  - by rewrite Hsome, Hpw.
  - rewrite Hsome, Hact.
    by destruct (AuthController.correctPassword bcryptCompare password _).
Qed.

(** C9. Any two refused logins (unknown email, wrong password or
    deactivated account, in any two databases) get the same response:
    status 401 with body [{status: 'fail', message: 'Invalid email or
    password'}]; and neither changes the identity store. *)
Theorem login_failures_indistinguishable
    (users1 users2 : gmap string User.t)
    (email1 password1 email2 password2 : string) (now1 now2 : Z) :
  Refused users1 email1 password1 →
  Refused users2 email2 password2 →
  let r1 := login users1 email1 password1 now1 in
  let r2 := login users2 email2 password2 now2 in
  r1.1 = r2.1
  ∧ r1.1 = Http.mkResponse 401 "fail" (Some "Invalid email or password") Http.NoData
  ∧ r1.2 = users1 ∧ r2.2 = users2.
Proof.
  intros H1 H2 r1 r2. subst r1 r2.
  rewrite (login_refused _ _ _ now1 H1), (login_refused _ _ _ now2 H2).
  done.
Qed.

End LoginProperties.

Lemma login_failures_indistinguishable_witness :
  (AuthController.login Sample.castEmail Sample.bcryptCompare Sample.jwtSign
     Sample.users "nobody@example.com" "x" 1000).1
  = (AuthController.login Sample.castEmail Sample.bcryptCompare Sample.jwtSign
     Sample.users "dave@example.com" "retired" 2000).1.
Proof.
  refine (proj1 (login_failures_indistinguishable Sample.castEmail
    Sample.bcryptCompare Sample.jwtSign Sample.users Sample.users
    "nobody@example.com" "x" "dave@example.com" "retired" 1000 2000 _ _)).
  - apply AuthController.UnknownEmail. vm_compute. reflexivity.
  - eapply AuthController.Deactivated; [vm_compute; reflexivity | reflexivity].
Defined.

(** ** Booking engine *)

Lemma errorMiddleware_fails {Doc} (e : Http.Exn) :
  ¬ Http.isSuccess (Http.errorMiddleware (Doc := Doc) e)
  ∧ 400 ≤ Http.code (Http.errorMiddleware (Doc := Doc) e).
Proof.
  unfold Http.isSuccess, Http.errorMiddleware.
  destruct (bool_decide (Http.name e = "CastError")),
    (bool_decide (Http.name e = "ValidationError")); simpl;
    (split; [discriminate | lia]).
Qed.

Lemma errorMiddleware_plain_Error {Doc} (m : string) :
  m ≠ "" →
  Http.errorMiddleware (Doc := Doc) (Http.Throw "Error" m)
  = Http.mkResponse 500 "error" (Some m) Http.NoData.
Proof.
  intros Hm. unfold Http.errorMiddleware. simpl.
  by rewrite bool_decide_eq_false_2.
Qed.

(** The outcomes of [createBooking]: a failure that leaves the database as
    it was, or the creation of [bookingData] under the new id. *)
Lemma createBooking_cases (db : Db) (user : Caller)
    (body : Validation.BookingBody) (newId : string) (now : Z) :
  let r := (BookingController.createBooking db user body newId now).1 in
  let db' := (BookingController.createBooking db user body newId now).2 in
  (¬ Http.isSuccess r ∧ 400 ≤ Http.code r ∧ db' = db)
  ∨ (∃ service pet,
       let booking :=
         BookingController.bookingData user (Service.sitter service) service body in
       services db !! Validation.service body = Some service
       ∧ Service.isActive service = true
       ∧ pets db !! Validation.pet body = Some pet
       ∧ Pet.owner pet = id user ∧ Pet.isActive pet = true
       ∧ Pet.species pet ∈ Service.petTypes service
       ∧ Booking.findConflicts (bookings db) (Service.sitter service)
           (Validation.startDate body) (Validation.endDate body) None = []
       ∧ Validation.startDate body < Validation.endDate body
       ∧ now ≤ Validation.startDate body
       ∧ r = Http.mkResponse 201 "success" None (Http.One booking)
       ∧ db' = set_bookings (<[newId := booking]> (bookings db)) db).
Proof.
  unfold BookingController.createBooking,
    BookingController.findServicePopulated, Service.findOne.
  destruct (ObjectId.isValid (Validation.service body)); simpl;
    [|left; split; [apply errorMiddleware_fails|done]].
  destruct (services db !! Validation.service body) as [service|] eqn:Hs;
    simpl; [|left; repeat split; [discriminate|lia]].
  destruct (Service.isActive service) eqn:Hact; simpl;
    [|left; repeat split; [discriminate|lia]].
  destruct (Pet.findOne (pets db) (Validation.pet body) (id user))
    as [[pet|]|e] eqn:Hp; simpl.
  2:{ left; repeat split; [discriminate|lia]. }
  2:{ left. pose proof (errorMiddleware_fails (Doc := Booking.t) e). tauto. }
  apply findOne_Some in Hp as (Hpl & Hpo & Hpa).
  destruct (bool_decide (Pet.species pet ∈ Service.petTypes service)) eqn:Hsp;
    simpl; [|left; repeat split; [discriminate|lia]].
  apply bool_decide_eq_true_1 in Hsp.
  destruct (users db !! Service.sitter service); simpl;
    [|left; repeat split; [discriminate|lia]].
  destruct (Booking.findConflicts (bookings db) (Service.sitter service)
              (Validation.startDate body) (Validation.endDate body) None)
    as [|c cs] eqn:Hc; simpl; [|left; repeat split; [discriminate|lia]].
  unfold Booking.save.
  destruct (Booking.validateCreate _) as [|v vs]; simpl;
    [|left; repeat split; [discriminate|lia]].
  unfold Booking.preSave. simpl.
  case_bool_decide as Hle; simpl.
  { left. rewrite errorMiddleware_plain_Error by done.
    repeat split; [discriminate|simpl; lia]. }
  destruct (Z.ltb_spec (Validation.startDate body) now) as [Hpast|Hfut]; simpl.
  { left. rewrite errorMiddleware_plain_Error by done.
    repeat split; [discriminate|simpl; lia]. }
  right. exists service, pet. simpl. repeat split; try done. lia.
Qed.

Lemma validate_passes {Doc} (errors : list (string * string)) :
  Validation.validate (Doc := Doc) errors = None ↔ errors = [].
Proof. destruct errors as [|e [|e' es]]; simpl; split; done. Qed.

Lemma validate_rejects {Doc} (errors : list (string * string)) r :
  Validation.validate (Doc := Doc) errors = Some r →
  Http.code r = 400 ∧ Http.status r = "fail" ∧ Http.data r = Http.Details errors
  ∧ errors ≠ [].
Proof. destruct errors as [|e [|e' es]]; simpl; intros [= <-]; done. Qed.

(** What a body that passes [bookingSchema] satisfies on its dates. *)
Lemma bookingSchema_dates (body : Validation.BookingBody) (now : Z) :
  Validation.bookingSchema body now = [] →
  now ≤ Validation.startDate body
  ∧ Validation.startDate body ≤ Validation.endDate body.
Proof.
  unfold Validation.bookingSchema. intros H.
  repeat (apply app_eq_nil in H as [? H]).
  destruct (Z.ltb_spec (Validation.startDate body) now); [done|].
  destruct (Z.ltb_spec (Validation.endDate body) (Validation.startDate body));
    [done|]. lia.
Qed.

Lemma bookingSchema_rejects_dates (body : Validation.BookingBody) (now : Z) :
  Validation.endDate body < Validation.startDate body
  ∨ Validation.startDate body < now →
  Validation.bookingSchema body now ≠ [].
Proof.
  intros Hd He. apply bookingSchema_dates in He. lia.
Qed.

(** POST /api/bookings as a whole: the same two outcomes. *)
Lemma post_cases (db : Db) (user : Caller) (body : Validation.BookingBody)
    (newId : string) (clock : nat → Z) :
  let r := (BookingRoutes.post db user body newId clock).1 in
  let db' := (BookingRoutes.post db user body newId clock).2 in
  (¬ Http.isSuccess r ∧ 400 ≤ Http.code r ∧ db' = db)
  ∨ (∃ service pet,
       let booking :=
         BookingController.bookingData user (Service.sitter service) service body in
       role user = "owner"
       ∧ Validation.bookingSchema body (clock 0%nat) = []
       ∧ services db !! Validation.service body = Some service
       ∧ Service.isActive service = true
       ∧ pets db !! Validation.pet body = Some pet
       ∧ Pet.owner pet = id user ∧ Pet.isActive pet = true
       ∧ Pet.species pet ∈ Service.petTypes service
       ∧ Booking.findConflicts (bookings db) (Service.sitter service)
           (Validation.startDate body) (Validation.endDate body) None = []
       ∧ Validation.startDate body < Validation.endDate body
       ∧ clock 1%nat ≤ Validation.startDate body
       ∧ r = Http.mkResponse 201 "success" None (Http.One booking)
       ∧ db' = set_bookings (<[newId := booking]> (bookings db)) db).
Proof.
  unfold BookingRoutes.post, restrictTo.
  destruct (bool_decide (role user ∈ ["owner"])) eqn:Hrole; simpl.
  2:{ left. repeat split; [discriminate|lia]. }
  apply bool_decide_eq_true_1, list_elem_of_singleton in Hrole.
  destruct (Validation.validate _) as [invalid|] eqn:Hv; simpl.
  { left. apply validate_rejects in Hv as (Hc & Hs & _).
    unfold Http.isSuccess. rewrite Hc, Hs. repeat split; [discriminate|lia]. }
  apply validate_passes in Hv.
  destruct (createBooking_cases db user body newId (clock 1%nat))
    as [Hfail | (service & pet & H)]; [by left|].
  right. exists service, pet. simpl in *. tauto.
Qed.

Lemma Qabs_inject_Z_pos (z : Z) : 0 ≤ z → Qabs (inject_Z z) = inject_Z z.
Proof. intros Hz. unfold Qabs, inject_Z. by rewrite Z.abs_eq. Qed.


(** The same example in binary64, the arithmetic of JavaScript: ninety
    minutes are 1.5 hours exactly, and with [Math.ceil(1.5) = 2] the price
    [10 * 2] plus its fee [10 * 2 * 0.05] is the double 21 exactly
    ([0x1.999999999999ap-5] is the double that [0.05] denotes). *)
Lemma hourly_example_binary64 :
  PrimFloat.eqb (5400000 / 36e5)%float 1.5%float = true
  ∧ PrimFloat.eqb (10 * 2 + 10 * 2 * 0x1.999999999999ap-5)%float 21%float
    = true.
Proof. split; vm_compute; reflexivity. Qed.




Lemma blocking_not_terminal (s : string) :
  s ∈ ["pending"; "confirmed"; "in_progress"] →
  s ∈ ["completed"; "cancelled"; "declined"] → False.
Proof.
  intros H1 H2.
  repeat (apply elem_of_cons in H1 as [->|H1]);
    try (by apply elem_of_nil in H1);
    repeat (apply elem_of_cons in H2 as [H2|H2]);
    try discriminate H2; by apply elem_of_nil in H2.
Qed.





Lemma booking_findOne_Some (bookings : gmap string Booking.t) (id_ : string)
    (owner sitter : option string) (b : Booking.t) :
  BookingController.findOne bookings id_ owner sitter = Http.Ok (Some b) →
  bookings !! id_ = Some b
  ∧ BookingController.matches owner (Booking.owner b) = true
  ∧ BookingController.matches sitter (Booking.sitter b) = true.
Proof.
  unfold BookingController.findOne.
  destruct (ObjectId.isValid id_); [|discriminate].
  destruct (bookings !! id_) as [b'|]; [|discriminate].
  destruct (BookingController.matches owner _) eqn:Ho; [|discriminate].
  destruct (BookingController.matches sitter _) eqn:Hs; [|discriminate].
  intros [= <-]. done.
Qed.

Lemma booking_findOne_fails (bookings : gmap string Booking.t) (id_ : string)
    (owner sitter : option string) (e : Http.Exn) :
  BookingController.findOne bookings id_ owner sitter = Http.Raise e →
  e = ObjectId.castError.
Proof.
  unfold BookingController.findOne.
  destruct (ObjectId.isValid id_); [discriminate|]. by intros [= <-].
Qed.

(** The outcomes of a save of a stored document. *)
Lemma save_existing_cases (bookings : gmap string Booking.t) (id_ : string)
    (b : Booking.t) (validation : list string) :
  (∃ e, Booking.save bookings id_ b false validation None = Http.Raise e)
  ∨ Booking.save bookings id_ b false validation None
    = Http.Ok (<[id_ := b]> bookings).
Proof.
  unfold Booking.save, Booking.preSave.
  destruct validation; [|eauto]. case_bool_decide; simpl; eauto.
Qed.

(** The outcomes of [updateBookingStatus]: a failure that leaves the
    database as it was, or a transition of the table, written together
    with the notes and, for a cancellation, its record. *)
Lemma updateBookingStatus_cases (db : Db) (user : Caller) (id_ status : string)
    (notes : option string) (clock : nat → Z) :
  let r := (BookingController.updateBookingStatus db user id_ status notes clock).1 in
  let db' := (BookingController.updateBookingStatus db user id_ status notes clock).2 in
  (¬ Http.isSuccess r ∧ 400 ≤ Http.code r ∧ db' = db)
  ∨ (∃ booking booking' allowed,
       bookings db !! id_ = Some booking
       ∧ BookingController.validTransitions (Booking.status booking) = Some allowed
       ∧ status ∈ allowed
       ∧ Booking.status booking' = status
       ∧ Booking.service booking' = Booking.service booking
       ∧ Booking.totalPrice booking' = Booking.totalPrice booking
       ∧ Booking.startDate booking' = Booking.startDate booking
       ∧ (if bool_decide (status = "cancelled")
          then Booking.canBeCancelled booking (clock 0%nat) = true
               ∧ Booking.cancellation booking'
                 = Some (Booking.mkCancellation (id user) (clock 1%nat) notes
                           (Booking.calculateRefund booking (clock 2%nat)))
          else Booking.cancellation booking' = Booking.cancellation booking)
       ∧ r = Http.mkResponse 200 "success" None (Http.One booking')
       ∧ db' = (if bool_decide (status = "confirmed")
                then set_services
                       (Service.incTotalBookings (services db)
                          (Booking.service booking))
                else λ d, d)
                 (set_bookings (<[id_ := booking']> (bookings db)) db)).
Proof.
  unfold BookingController.updateBookingStatus.
  destruct (BookingController.statusQuery user status) as [forbidden|[owner sitter]]
    eqn:Hq.
  { left. unfold BookingController.statusQuery in Hq.
    repeat case_bool_decide; simpl in Hq; try discriminate Hq;
      injection Hq as <-; repeat split; (discriminate || (simpl; lia)). }
  destruct (BookingController.findOne (bookings db) id_ owner sitter)
    as [[booking|]|e] eqn:Hf.
  2:{ left. repeat split; [discriminate | simpl; lia]. }
  2:{ left. pose proof (errorMiddleware_fails (Doc := Booking.t) e). tauto. }
  apply booking_findOne_Some in Hf as (Hl & _ & _).
  destruct (BookingController.validTransitions (Booking.status booking))
    as [allowed|] eqn:Hvt.
  2:{ left. pose proof (errorMiddleware_fails (Doc := Booking.t)
        (Http.Throw "TypeError"
           "Cannot read properties of undefined (reading 'includes')")).
      tauto. }
  case_bool_decide as Hin; simpl.
  2:{ left. repeat split; [discriminate | lia]. }
  destruct (bool_decide (status = "cancelled")) eqn:Hcan; simpl.
  - destruct (Booking.canBeCancelled booking (clock 0%nat)) eqn:Hcbc; simpl.
    2:{ left. repeat split; [discriminate | lia]. }
    destruct (bool_decide (role user = "owner") && BookingController.truthy notes);
      [|destruct (bool_decide (role user = "sitter")
                  && BookingController.truthy notes)];
      match goal with
      | |- context [Booking.save ?bs ?i ?b false ?v None] =>
          destruct (save_existing_cases bs i b v) as [[e ->] | ->]
      end;
      try (left; pose proof (errorMiddleware_fails (Doc := Booking.t) e); tauto);
      right;
      match goal with
      | |- context [Http.One ?b'] => exists booking, b', allowed
      end;
      apply bool_decide_eq_true_1 in Hcan; subst status;
      simpl; repeat split; done.
  - destruct (bool_decide (role user = "owner") && BookingController.truthy notes);
      [|destruct (bool_decide (role user = "sitter")
                  && BookingController.truthy notes)];
      match goal with
      | |- context [Booking.save ?bs ?i ?b false ?v None] =>
          destruct (save_existing_cases bs i b v) as [[e ->] | ->]
      end;
      try (left; pose proof (errorMiddleware_fails (Doc := Booking.t) e); tauto);
      right;
      match goal with
      | |- context [Http.One ?b'] => exists booking, b', allowed
      end;
      simpl; repeat split; try done;
      destruct (bool_decide (status = "confirmed")); done.
Qed.

Lemma gt_true (x y : Q) : Booking.gt x y = true ↔ (y < x)%Q.
Proof.
  unfold Booking.gt. rewrite negb_true_iff, <- not_true_iff_false, Qle_bool_iff.
  split; [apply Qnot_le_lt | apply Qlt_not_le].
Qed.

Lemma gt_false (x y : Q) : Booking.gt x y = false ↔ (x <= y)%Q.
Proof. unfold Booking.gt. by rewrite negb_false_iff, Qle_bool_iff. Qed.

(** Hours until the start, read in milliseconds. *)
Lemma hoursUntilStart_gt (b : Booking.t) (now h : Z) :
  ((inject_Z h < Booking.hoursUntilStart b now)%Q)
  ↔ (h * 3600000 < Booking.startDate b - now).
Proof.
  unfold Booking.hoursUntilStart, Qlt, Qdiv, Qmult, Qinv, inject_Z. simpl.
  lia.
Qed.

Lemma canBeCancelled_true (b : Booking.t) (now : Z) :
  Booking.canBeCancelled b now = true
  ↔ (Booking.status b ∉ ["completed"; "cancelled"])
    ∧ (24 < Booking.hoursUntilStart b now)%Q.
Proof.
  unfold Booking.canBeCancelled. rewrite !elem_of_cons, elem_of_nil.
  repeat case_bool_decide; simpl; rewrite ?gt_true; intuition congruence.
Qed.

Ltac order_contradiction :=
  exfalso;
  match goal with
  | H1 : (?a < ?b)%Q, H2 : (?b <= ?a)%Q |- _ =>
      exact (Qlt_irrefl _ (Qlt_le_trans _ _ _ H1 H2))
  | H1 : (48 < ?b)%Q, H2 : (?b <= 24)%Q |- _ =>
      let H := fresh in
      pose proof (Qlt_le_trans _ _ _ H1 H2) as H; vm_compute in H;
      discriminate H
  end.

Lemma calculateRefund_tiers (b : Booking.t) (now : Z) :
  let h := Booking.hoursUntilStart b now in
  let refund := Booking.calculateRefund b now in
  ((48 < h)%Q → refund = Booking.totalPrice b)
  ∧ ((24 < h)%Q → (h <= 48)%Q → refund = (Booking.totalPrice b * (5 # 10))%Q)
  ∧ ((h <= 24)%Q → refund = 0%Q).
Proof.
  intros h refund. subst refund. unfold Booking.calculateRefund. fold h.
  destruct (Booking.gt h 48) eqn:H48; [apply gt_true in H48|apply gt_false in H48];
    (destruct (Booking.gt h 24) eqn:H24;
     [apply gt_true in H24|apply gt_false in H24]);
    repeat split; intros; try reflexivity; order_contradiction.
Qed.

(** What a successful cancellation has checked and written. *)
Lemma cancellation_success (db : Db) (user : Caller) (id_ : string)
    (notes : option string) (clock : nat → Z) :
  let r := (BookingRoutes.patchStatus db user id_ "cancelled" notes clock).1 in
  let db' := (BookingRoutes.patchStatus db user id_ "cancelled" notes clock).2 in
  Http.isSuccess r →
  ∃ booking booking',
    bookings db !! id_ = Some booking
    ∧ Booking.canBeCancelled booking (clock 0%nat) = true
    ∧ bookings db' !! id_ = Some booking'
    ∧ Booking.status booking' = "cancelled"
    ∧ Booking.cancellation booking'
      = Some (Booking.mkCancellation (id user) (clock 1%nat) notes
                (Booking.calculateRefund booking (clock 2%nat))).
Proof.
  intros r db' Hok. subst r db'. unfold BookingRoutes.patchStatus in *.
  destruct (updateBookingStatus_cases db user id_ "cancelled" notes clock)
    as [(Hfail & _)
       | (booking & booking' & allowed & Hl & _ & _ & Hst & _ & _ & _ & Hc & _ & Hdb)];
    [done|].
  simpl in Hc. destruct Hc as (Hcbc & Hcanc).
  exists booking, booking'. rewrite Hdb. simpl. rewrite lookup_insert_eq. done.
Qed.




(** X1. With a single instant for all readings of the clock, a successful
    cancellation never records a refund of 0. *)
Lemma cancellation_refund_single_instant (db : Db) (user : Caller)
    (id_ : string) (notes : option string) (now : Z) :
  let r := (BookingRoutes.patchStatus db user id_ "cancelled" notes (λ _, now)).1 in
  let db' := (BookingRoutes.patchStatus db user id_ "cancelled" notes (λ _, now)).2 in
  Http.isSuccess r →
  ∃ booking booking' c,
    bookings db !! id_ = Some booking
    ∧ bookings db' !! id_ = Some booking'
    ∧ Booking.cancellation booking' = Some c
    ∧ ((Booking.refundAmount c == Booking.totalPrice booking)%Q
       ∨ (Booking.refundAmount c == Booking.totalPrice booking * (1 # 2))%Q).
Proof.
  intros r db' Hok.
  destruct (cancellation_success db user id_ notes (λ _, now) Hok)
    as (booking & booking' & Hl & Hcbc & Hl' & _ & Hcanc).
  apply canBeCancelled_true in Hcbc as (_ & H24).
  eexists booking, booking', _. repeat split; try done. simpl.
  destruct (calculateRefund_tiers booking now) as (Hfull & Hhalf & _).
  destruct (Qlt_le_dec 48 (Booking.hoursUntilStart booking now)) as [H48|H48].
  - left. by rewrite (Hfull H48).
  - right. rewrite (Hhalf H24 H48). apply Qmult_comp; reflexivity.
Qed.

Lemma incTotalBookings_lookup (services : gmap string Service.t)
    (sid j : string) :
  Service.incTotalBookings services sid !! j
  = if decide (sid = j)
    then (λ s, Service.set_totalBookings (Service.totalBookings s + 1) s)
           <$> services !! sid
    else services !! j.
Proof. unfold Service.incTotalBookings. apply lookup_alter. Qed.

Lemma checkInOut_services (db : Db) (user : Caller) (path id_ : string)
    (notes : option string) (photos : option (list string)) (now : Z) :
  services (BookingController.checkInOut db user path id_ notes photos now).2
  = services db.
Proof.
  unfold BookingController.checkInOut. cbv zeta.
  destruct (BookingController.findOne _ _ _ _) as [[booking|]|e]; try done.
  destruct (BookingController.includes path "checkin");
    repeat (case_bool_decide; simpl; try done);
    destruct (Booking.preSave _ _ _); done.
Qed.

Lemma addBookingUpdate_services (db : Db) (user : Caller) (id_ : string)
    (message : option string) (photos : option (list string)) (now : Z) :
  services (BookingController.addBookingUpdate db user id_ message photos now).2
  = services db.
Proof.
  unfold BookingController.addBookingUpdate.
  destruct (BookingController.findOne _ _ _ _) as [[booking|]|e]; try done.
  case_bool_decide; simpl; try done.
  destruct (Booking.preSave _ _ _); done.
Qed.

(** C10. Creating a booking leaves every service, hence every
    [totalBookings] counter, as it was, also when the service has
    [instantBooking] and the booking is created confirmed.  Among the
    booking operations only a successful status update whose requested
    status is 'confirmed' changes a counter: it adds 1 to the counter of the
    booking's service and to no other; any other status update, check-in,
    check-out and booking update leave the services unchanged. *)
Theorem totalBookings_only_incremented_on_confirm :
  (∀ db user body newId clock,
     let r := (BookingRoutes.post db user body newId clock).1 in
     let db' := (BookingRoutes.post db user body newId clock).2 in
     services db' = services db
     ∧ ∀ service, services db !! Validation.service body = Some service →
         Service.instantBooking service = true → Http.isSuccess r →
         ∃ booking, bookings db' !! newId = Some booking
                    ∧ Booking.status booking = "confirmed")
  ∧ (∀ db user id_ status notes clock,
       let r := (BookingRoutes.patchStatus db user id_ status notes clock).1 in
       let db' := (BookingRoutes.patchStatus db user id_ status notes clock).2 in
       (status = "confirmed" → Http.isSuccess r →
          ∃ booking, bookings db !! id_ = Some booking
            ∧ ∀ sid, services db' !! sid
                = if decide (Booking.service booking = sid)
                  then (λ s, Service.set_totalBookings
                               (Service.totalBookings s + 1) s)
                         <$> services db !! sid
                  else services db !! sid)
       ∧ (status ≠ "confirmed" ∨ ¬ Http.isSuccess r → services db' = services db))
  ∧ (∀ db user id_ notes photos now,
       services (BookingRoutes.checkin db user id_ notes photos now).2 = services db
       ∧ services (BookingRoutes.checkout db user id_ notes photos now).2
         = services db)
  ∧ (∀ db user id_ message photos now,
       services (BookingController.addBookingUpdate db user id_ message photos now).2
       = services db).
Proof.
  split; [|split; [|split]].
  - intros db user body newId clock r db'.
    destruct (post_cases db user body newId clock)
      as [(Hfail & _ & Hsame) | (service & pet & H)].
    + fold db' in Hsame. fold r in Hfail. rewrite Hsame. split; [done|]. done.
    + simpl in H.
      destruct H as (_ & _ & Hs & _ & _ & _ & _ & _ & _ & _ & _ & Hr & Hdb).
      fold db' in Hdb. rewrite Hdb. split; [done|].
      intros service' Hs' Hinstant _. rewrite Hs in Hs'. injection Hs' as <-.
      eexists. simpl. split; [apply lookup_insert_eq|].
      unfold BookingController.bookingData. simpl. by rewrite Hinstant.
  - intros db user id_ status notes clock r db'. subst r db'.
    unfold BookingRoutes.patchStatus.
    destruct (updateBookingStatus_cases db user id_ status notes clock)
      as [(Hfail & _ & Hsame)
         | (booking & booking' & allowed & Hl & _ & _ & _ & _ & _ & _ & _ & Hr & Hdb)].
    + rewrite Hsame. split; [done|]. done.
    + rewrite Hdb, Hr. split.
      * intros -> _. exists booking. split; [done|]. intros sid.
        rewrite bool_decide_eq_true_2 by done. simpl.
        rewrite incTotalBookings_lookup. 
        destruct (decide (Booking.service booking = sid)) as [Hsid|];
          [by rewrite Hsid | done].
      * intros [Hne | Hno]; [|exfalso; by apply Hno].
        by rewrite bool_decide_eq_false_2.
  - intros db user id_ notes photos now.
    unfold BookingRoutes.checkin, BookingRoutes.checkout.
    destruct (restrictTo ["sitter"] user); simpl; [done|].
    by rewrite !checkInOut_services.
  - intros. apply addBookingUpdate_services.
Qed.

Lemma totalBookings_only_incremented_on_confirm_witness :
  (∃ booking,
     bookings (BookingRoutes.post Sample.db Sample.alice Sample.boardBody
                 Sample.bookingId Sample.clock).2 !! Sample.bookingId
     = Some booking ∧ Booking.status booking = "confirmed")
  ∧ services (BookingRoutes.post Sample.db Sample.alice Sample.boardBody
                Sample.bookingId Sample.clock).2 !! Sample.boardId
    = Some Sample.board.
Proof.
  destruct (proj1 totalBookings_only_incremented_on_confirm Sample.db
    Sample.alice Sample.boardBody Sample.bookingId Sample.clock) as [Hsame Hst].
  split.
  - exact (Hst Sample.board eq_refl eq_refl eq_refl).
  - simpl in Hsame. rewrite Hsame. reflexivity.
Defined.

(** X2. The status handler keeps to the table: the stored status of the
    booking stays as it was or moves along [validTransitions], and a
    request outside the table fails and writes nothing. *)
Lemma updateBookingStatus_follows_table (db : Db) (user : Caller)
    (id_ status : string) (notes : option string) (clock : nat → Z)
    (booking : Booking.t) :
  let r := (BookingRoutes.patchStatus db user id_ status notes clock).1 in
  let db' := (BookingRoutes.patchStatus db user id_ status notes clock).2 in
  bookings db !! id_ = Some booking →
  (∃ booking', bookings db' !! id_ = Some booking'
     ∧ (Booking.status booking' = Booking.status booking
        ∨ allowedTransition (Booking.status booking) (Booking.status booking')))
  ∧ (¬ allowedTransition (Booking.status booking) status →
     ¬ Http.isSuccess r ∧ 400 ≤ Http.code r ∧ db' = db).
Proof.
  intros r db' Hl. subst r db'. unfold BookingRoutes.patchStatus.
  destruct (updateBookingStatus_cases db user id_ status notes clock)
    as [(Hfail & Hcode & Hsame)
       | (b & b' & allowed & Hl' & Hvt & Hin & Hst & _ & _ & _ & _ & Hr & Hdb)].
  - rewrite Hsame. split; [eauto|done].
  - rewrite Hl in Hl'. injection Hl' as <-. split.
    + exists b'. split.
      * rewrite Hdb. destruct (bool_decide (status = "confirmed")); simpl;
          apply lookup_insert_eq.
      * right. exists allowed. by rewrite Hst.
    + intros Hno. exfalso. apply Hno. by exists allowed.
Qed.

(** On its route, the answer to a request outside the table is the 400
    "Cannot change status" response, once the role gate has passed and the
    booking is found. *)
Lemma updateBookingStatus_InvalidTransition (db : Db) (user : Caller)
    (id_ status : string) (notes : option string) (clock : nat → Z)
    (booking : Booking.t) (owner sitter : option string) (allowed : list string) :
  BookingController.statusQuery user status = inr (owner, sitter) →
  BookingController.findOne (bookings db) id_ owner sitter = Http.Ok (Some booking) →
  BookingController.validTransitions (Booking.status booking) = Some allowed →
  status ∉ allowed →
  BookingRoutes.patchStatus db user id_ status notes clock
  = (Http.fail 400 ("Cannot change status from " +:+ Booking.status booking
                    +:+ " to " +:+ status), db).
Proof.
  intros Hq Hf Hvt Hout.
  unfold BookingRoutes.patchStatus, BookingController.updateBookingStatus.
  rewrite Hq, Hf, Hvt. by rewrite bool_decide_eq_false_2.
Qed.

Lemma checkin_path (prefix : string) :
  BookingController.includes (prefix +:+ "/checkin") "checkin" = true.
Proof.
  unfold BookingController.includes.
  destruct (String.index 0 "checkin" (prefix +:+ "/checkin")) eqn:Hi; [done|].
  exfalso.
  apply (index_correct3 0 (S (String.length prefix)) "checkin"
           (prefix +:+ "/checkin") Hi); [discriminate | lia |].
  clear Hi. induction prefix as [|c s IH]; [reflexivity | exact IH].
Qed.

(** Check-in does not look at the status: whatever it is, a booking of the
    calling sitter that has no check-in time is stored as in progress. *)
Lemma checkin_ignores_status (db : Db) (user : Caller) (id_ : string)
    (notes : option string) (photos : option (list string)) (now : Z)
    (booking : Booking.t) :
  role user = "sitter" → ObjectId.isValid id_ = true →
  bookings db !! id_ = Some booking → Booking.sitter booking = id user →
  Booking.time (Booking.checkIn booking) = None →
  Booking.startDate booking < Booking.endDate booking →
  let r := (BookingRoutes.checkin db user id_ notes photos now).1 in
  let db' := (BookingRoutes.checkin db user id_ notes photos now).2 in
  Http.code r = 200 ∧ Http.isSuccess r
  ∧ ∃ booking', bookings db' !! id_ = Some booking'
      ∧ Booking.status booking' = "in_progress".
Proof.
  intros Hrole Hv Hl Hs Hci Hdates.
  unfold BookingRoutes.checkin, restrictTo. rewrite Hrole. simpl.
  unfold BookingController.checkInOut, BookingController.findOne. cbv zeta.
  rewrite Hv, Hl. simpl BookingController.matches.
  rewrite bool_decide_eq_true_2 by done.
  change ("/" +:+ id_ +:+ "/checkin") with (String "/" id_ +:+ "/checkin").
  rewrite checkin_path. cbn [andb]. rewrite Hci.
  rewrite bool_decide_eq_false_2 by (by intros [? ?]).
  unfold Booking.save, Booking.preSave. simpl.
  rewrite bool_decide_eq_false_2 by lia. simpl.
  repeat split. eexists. split; [apply lookup_insert_eq | reflexivity].
Qed.

(** C1, at the failing requests.  The sitter checks in on a booking that is
    still pending: the request succeeds and the booking is stored as in
    progress, a move that [validTransitions] does not allow from pending.
    The same request on a cancelled booking takes it out of its terminal
    status.  The status handler refuses both moves. *)
Theorem checkin_bypasses_transition_table :
  let r := (BookingRoutes.checkin Sample.booked Sample.carol Sample.bookingId
              None None 2000000).1 in
  let db' := (BookingRoutes.checkin Sample.booked Sample.carol Sample.bookingId
                None None 2000000).2 in
  let r2 := (BookingRoutes.checkin Sample.cancelled Sample.carol
               Sample.bookingId None None 2000000).1 in
  let db2 := (BookingRoutes.checkin Sample.cancelled Sample.carol
                Sample.bookingId None None 2000000).2 in
  (Booking.status <$> bookings Sample.booked !! Sample.bookingId) = Some "pending"
  ∧ Http.code r = 200
  ∧ (Booking.status <$> bookings db' !! Sample.bookingId) = Some "in_progress"
  ∧ ¬ allowedTransition "pending" "in_progress"
  ∧ (Booking.status <$> bookings Sample.cancelled !! Sample.bookingId)
    = Some "cancelled"
  ∧ Http.code r2 = 200
  ∧ (Booking.status <$> bookings db2 !! Sample.bookingId) = Some "in_progress"
  ∧ ¬ allowedTransition "cancelled" "in_progress"
  ∧ (BookingRoutes.patchStatus Sample.booked Sample.carol Sample.bookingId
       "in_progress" None Sample.clock).1
    = Http.fail 400 "Cannot change status from pending to in_progress".
Proof.
  assert (Hno : ∀ s allowed, "in_progress" ∉ allowed →
            BookingController.validTransitions s = Some allowed →
            ¬ allowedTransition s "in_progress").
  { intros s allowed Hout Hvt (allowed' & Hvt' & Hin). congruence. }
  repeat split; try (vm_compute; reflexivity).
  - apply (Hno _ ["confirmed"; "declined"; "cancelled"]); [|reflexivity].
    rewrite !elem_of_cons, elem_of_nil. intuition discriminate.
  - apply (Hno _ []); [|reflexivity]. apply not_elem_of_nil.
Qed.

(** Dates that the Joi schema refuses are answered 400 with the validation
    details, and nothing is written. *)
Lemma post_dates_ValidationError (db : Db) (user : Caller)
    (body : Validation.BookingBody) (newId : string) (clock : nat → Z) :
  role user = "owner" →
  Validation.endDate body < Validation.startDate body
  ∨ Validation.startDate body < clock 0%nat →
  let r := (BookingRoutes.post db user body newId clock).1 in
  let db' := (BookingRoutes.post db user body newId clock).2 in
  Http.code r = 400 ∧ Http.status r = "fail"
  ∧ Http.data r = Http.Details (Validation.bookingSchema body (clock 0%nat))
  ∧ db' = db.
Proof.
  intros Hrole Hd. unfold BookingRoutes.post.
  rewrite (restrictTo_owner user Hrole).
  destruct (Validation.validate (Doc := Booking.t) _) as [invalid|] eqn:Hv.
  - apply validate_rejects in Hv as (? & ? & ? & _). done.
  - apply validate_passes in Hv. by apply bookingSchema_rejects_dates in Hd.
Qed.

(** No booking is created with [endDate <= startDate] or with a start that
    is already past when the request is validated. *)
Lemma post_dates_nothing_persisted (db : Db) (user : Caller)
    (body : Validation.BookingBody) (newId : string) (clock : nat → Z) :
  Validation.endDate body ≤ Validation.startDate body
  ∨ Validation.startDate body < clock 0%nat →
  let r := (BookingRoutes.post db user body newId clock).1 in
  let db' := (BookingRoutes.post db user body newId clock).2 in
  ¬ Http.isSuccess r ∧ 400 ≤ Http.code r ∧ db' = db.
Proof.
  intros Hd r db'.
  destruct (post_cases db user body newId clock)
    as [Hfail | (service & pet & H)]; [done|].
  simpl in H. destruct H as (_ & Hv & _ & _ & _ & _ & _ & _ & _ & Hlt & _).
  apply bookingSchema_dates in Hv. lia.
Qed.

(** Whenever a body with [endDate = startDate] gets as far as the save, the
    answer is the 500 of the hook's plain [Error]. *)
Lemma post_equal_dates_500 (db : Db) (user : Caller)
    (body : Validation.BookingBody) (newId : string) (clock : nat → Z)
    (service : Service.t) (pet : Pet.t) :
  role user = "owner" →
  Validation.bookingSchema body (clock 0%nat) = [] →
  ObjectId.isValid (Validation.service body) = true →
  services db !! Validation.service body = Some service →
  Service.isActive service = true →
  is_Some (users db !! Service.sitter service) →
  ObjectId.isValid (Validation.pet body) = true →
  pets db !! Validation.pet body = Some pet →
  Pet.owner pet = id user → Pet.isActive pet = true →
  Pet.species pet ∈ Service.petTypes service →
  Booking.findConflicts (bookings db) (Service.sitter service)
    (Validation.startDate body) (Validation.endDate body) None = [] →
  Booking.validateCreate
    (BookingController.bookingData user (Service.sitter service) service body)
  = [] →
  Validation.endDate body = Validation.startDate body →
  BookingRoutes.post db user body newId clock
  = (Http.mkResponse 500 "error" (Some "End date must be after start date")
       Http.NoData, db).
Proof.
  intros Hrole Hvalid Hsv Hs Hsa [sitter Hu] Hpv Hp Hpo Hpa Hsp Hnc Hval Heq.
  unfold BookingRoutes.post.
  rewrite (restrictTo_owner user Hrole), Hvalid. simpl.
  unfold BookingController.createBooking,
    BookingController.findServicePopulated, Service.findOne.
  rewrite Hsv, Hs, Hsa, Hu.
  rewrite (findOne_found (pets db) user _ pet Hpv Hp Hpo Hpa).
  rewrite bool_decide_eq_true_2 by done. simpl.
  rewrite Hnc. simpl. unfold Booking.save. rewrite Hval.
  unfold Booking.preSave.
  rewrite bool_decide_eq_true_2
    by (unfold BookingController.bookingData; simpl; lia).
  by rewrite errorMiddleware_plain_Error.
Qed.

(** C5, at the failing request: an owner books their own pet on an active
    service, with [endDate] equal to [startDate], both in the future.  The
    Joi schema lets the body through ([min] accepts equality), the
    [pre('save')] hook throws a plain [Error], and the answer is the 500 of
    an unanticipated exception, not the 400 of a ValidationError; nothing is
    persisted. *)
Theorem createBooking_equal_dates_is_500 :
  let r := (BookingRoutes.post Sample.db Sample.alice Sample.emptyBody
              Sample.bookingId Sample.clock).1 in
  let db' := (BookingRoutes.post Sample.db Sample.alice Sample.emptyBody
                Sample.bookingId Sample.clock).2 in
  Validation.endDate Sample.emptyBody ≤ Validation.startDate Sample.emptyBody
  ∧ Sample.clock 0%nat ≤ Validation.startDate Sample.emptyBody
  ∧ Validation.bookingSchema Sample.emptyBody (Sample.clock 0%nat) = []
  ∧ r = Http.mkResponse 500 "error" (Some "End date must be after start date")
          Http.NoData
  ∧ db' = Sample.db.
Proof. repeat split; vm_compute; (reflexivity || discriminate). Qed.

(** * Further properties of the handlers *)

(** ** The status handler *)

(** A successful status update, in full: the caller is a party of the
    booking, the move is in the table, and the stored booking differs from
    the old one in its status, notes and cancellation record only. *)
Lemma updateBookingStatus_written (db : Db) (user : Caller) (id_ status : string)
    (notes : option string) (clock : nat → Z) :
  let r := (BookingController.updateBookingStatus db user id_ status notes clock).1 in
  let db' := (BookingController.updateBookingStatus db user id_ status notes clock).2 in
  (¬ Http.isSuccess r ∧ 400 ≤ Http.code r ∧ db' = db)
  ∨ (∃ booking booking',
       bookings db !! id_ = Some booking
       ∧ allowedTransition (Booking.status booking) status
       ∧ (role user = "owner" → Booking.owner booking = id user)
       ∧ (role user = "sitter" → Booking.sitter booking = id user)
       ∧ Booking.status booking' = status
       ∧ sameReservation booking booking'
       ∧ Booking.checkIn booking' = Booking.checkIn booking
       ∧ Booking.checkOut booking' = Booking.checkOut booking
       ∧ Booking.updates booking' = Booking.updates booking
       ∧ Http.code r = 200 ∧ Http.data r = Http.One booking'
       ∧ bookings db' = <[id_ := booking']> (bookings db)
       ∧ users db' = users db ∧ pets db' = pets db).
Proof.
  unfold BookingController.updateBookingStatus.
  destruct (BookingController.statusQuery user status) as [forbidden|[owner sitter]]
    eqn:Hq.
  { left. unfold BookingController.statusQuery in Hq.
    repeat case_bool_decide; simpl in Hq; try discriminate Hq;
      injection Hq as <-; repeat split; (discriminate || (simpl; lia)). }
  destruct (BookingController.findOne (bookings db) id_ owner sitter)
    as [[booking|]|e] eqn:Hf.
  2:{ left. repeat split; [discriminate | simpl; lia]. }
  2:{ left. pose proof (errorMiddleware_fails (Doc := Booking.t) e). tauto. }
  apply booking_findOne_Some in Hf as (Hl & Hmo & Hms).
  assert (Hparty : (role user = "owner" → Booking.owner booking = id user)
                   ∧ (role user = "sitter" → Booking.sitter booking = id user)).
  { unfold BookingController.statusQuery in Hq.
    repeat case_bool_decide; simpl in Hq; try discriminate Hq;
      injection Hq as <- <-; simpl in Hmo, Hms;
      repeat match goal with
             | H : bool_decide _ = true |- _ => apply bool_decide_eq_true_1 in H
             end; split; intros; congruence. }
  destruct Hparty as [Hpo Hps].
  destruct (BookingController.validTransitions (Booking.status booking))
    as [allowed|] eqn:Hvt.
  2:{ left. pose proof (errorMiddleware_fails (Doc := Booking.t)
        (Http.Throw "TypeError"
           "Cannot read properties of undefined (reading 'includes')")).
      tauto. }
  case_bool_decide as Hin; simpl.
  2:{ left. repeat split; [discriminate | lia]. }
  assert (Hallowed : allowedTransition (Booking.status booking) status)
    by (by exists allowed).
  destruct (bool_decide (status = "cancelled")) eqn:Hcan; simpl.
  - destruct (Booking.canBeCancelled booking (clock 0%nat)) eqn:Hcbc; simpl.
    2:{ left. repeat split; [discriminate | lia]. }
    destruct (bool_decide (role user = "owner") && BookingController.truthy notes);
      [|destruct (bool_decide (role user = "sitter")
                  && BookingController.truthy notes)];
      match goal with
      | |- context [Booking.save ?bs ?i ?b false ?v None] =>
          destruct (save_existing_cases bs i b v) as [[e ->] | ->]
      end;
      try (left; pose proof (errorMiddleware_fails (Doc := Booking.t) e); tauto);
      right;
      match goal with
      | |- context [Http.One ?b'] => exists booking, b'
      end;
      destruct (bool_decide (status = "confirmed"));
      unfold sameReservation; simpl; repeat split; done.
  - destruct (bool_decide (role user = "owner") && BookingController.truthy notes);
      [|destruct (bool_decide (role user = "sitter")
                  && BookingController.truthy notes)];
      match goal with
      | |- context [Booking.save ?bs ?i ?b false ?v None] =>
          destruct (save_existing_cases bs i b v) as [[e ->] | ->]
      end;
      try (left; pose proof (errorMiddleware_fails (Doc := Booking.t) e); tauto);
      right;
      match goal with
      | |- context [Http.One ?b'] => exists booking, b'
      end;
      destruct (bool_decide (status = "confirmed"));
      unfold sameReservation; simpl; repeat split; done.
Qed.

Lemma allowedTransition_cases (s s' : string) :
  allowedTransition s s' →
  (s = "pending" ∧ s' ∈ ["confirmed"; "declined"; "cancelled"])
  ∨ (s = "confirmed" ∧ s' ∈ ["in_progress"; "cancelled"])
  ∨ (s = "in_progress" ∧ s' ∈ ["completed"; "cancelled"]).
Proof.
  intros (allowed & Hvt & Hin). unfold BookingController.validTransitions in Hvt.
  repeat case_bool_decide; simplify_eq; auto;
    by apply elem_of_nil in Hin.
Qed.

Lemma allowedTransition_from_blocking (s s' : string) :
  allowedTransition s s' → blocking s.
Proof.
  intros H. unfold blocking.
  destruct (allowedTransition_cases s s' H) as [[-> _]|[[-> _]|[-> _]]];
    rewrite !elem_of_cons; auto.
Qed.


(** The witness of the table lemma: Carol confirms the pending sample
    booking. *)
Lemma updateBookingStatus_follows_table_witness :
  ∃ booking',
    bookings (BookingRoutes.patchStatus Sample.booked Sample.carol
                Sample.bookingId "confirmed" None Sample.clock).2
      !! Sample.bookingId = Some booking'
    ∧ (Booking.status booking' = "pending"
       ∨ allowedTransition "pending" (Booking.status booking')).
Proof.
  destruct (updateBookingStatus_follows_table Sample.booked Sample.carol
    Sample.bookingId "confirmed" None Sample.clock
    (BookingController.bookingData Sample.alice (id Sample.carol) Sample.walk
       Sample.walkBody) eq_refl) as [(booking' & Hl & H) _].
  exists booking'. exact (conj Hl H).
Defined.

(** X3. A booking that is completed, cancelled or declined is out of reach of
    the status handler: whoever asks for whatever status, the request fails
    and the database is left as it was. *)
Theorem updateBookingStatus_terminal_is_final (db : Db) (user : Caller)
    (id_ status : string) (notes : option string) (clock : nat → Z)
    (booking : Booking.t) :
  bookings db !! id_ = Some booking →
  Booking.status booking ∈ ["completed"; "cancelled"; "declined"] →
  let r := (BookingRoutes.patchStatus db user id_ status notes clock).1 in
  let db' := (BookingRoutes.patchStatus db user id_ status notes clock).2 in
  ¬ Http.isSuccess r ∧ 400 ≤ Http.code r ∧ db' = db.
Proof.
  intros Hl Hterm r db'. subst r db'. unfold BookingRoutes.patchStatus.
  destruct (updateBookingStatus_written db user id_ status notes clock)
    as [Hfail | (b & b' & Hl' & Hallowed & _)]; [done|].
  rewrite Hl in Hl'. injection Hl' as <-. exfalso.
  apply allowedTransition_from_blocking in Hallowed.
  exact (blocking_not_terminal _ Hallowed Hterm).
Qed.

Lemma updateBookingStatus_terminal_is_final_witness :
  (BookingRoutes.patchStatus Sample.cancelled Sample.carol Sample.bookingId
     "confirmed" None Sample.clock).2 = Sample.cancelled.
Proof.
  refine (proj2 (proj2 (updateBookingStatus_terminal_is_final Sample.cancelled
    Sample.carol Sample.bookingId "confirmed" None Sample.clock _ eq_refl _))).
  rewrite !elem_of_cons. right. left. reflexivity.
Defined.



(** ** No double booking *)





(** ** Check-in and check-out *)

Lemma hex_get (s : string) (p : nat) (c : ascii) :
  forallb ObjectId.isHex (list_ascii_of_string s) = true →
  String.get p s = Some c → ObjectId.isHex c = true.
Proof.
  revert p. induction s as [|a s IH]; intros p Hall Hget; [discriminate|].
  simpl in Hall. apply andb_true_iff in Hall as [Ha Hs].
  destruct p as [|p]; simpl in Hget; [congruence | eauto].
Qed.

Lemma get_append (s1 s2 : string) (p : nat) :
  String.get p (s1 +:+ s2)
  = if (p <? String.length s1)%nat then String.get p s1
    else String.get (p - String.length s1) s2.
Proof.
  destruct (Nat.ltb_spec p (String.length s1)) as [Hlt|Hge].
  - symmetry. by apply append_correct1.
  - rewrite (append_correct2 s1 s2 (p - String.length s1)). f_equal. lia.
Qed.

(** The path of the check-out route of a booking id does not contain
    "checkin". *)
Lemma checkout_path (id_ : string) :
  ObjectId.isValid id_ = true →
  BookingController.includes ("/" +:+ id_ +:+ "/checkout") "checkin" = false.
Proof.
  intros Hv. unfold ObjectId.isValid in Hv.
  apply andb_true_iff in Hv as [Hlen Hhex]. apply Nat.eqb_eq in Hlen.
  unfold BookingController.includes.
  destruct (String.index 0 "checkin" ("/" +:+ id_ +:+ "/checkout")) as [m|] eqn:Hi;
    [|done].
  exfalso. apply index_correct1 in Hi.
  change (String.length "checkin") with 7%nat in Hi.
  assert (Hh : String.get (1 + m) ("/" +:+ id_ +:+ "/checkout") = Some "h"%char).
  { rewrite <- (substring_correct1 _ m 7 1) by lia. by rewrite Hi. }
  assert (Hn : String.get (6 + m) ("/" +:+ id_ +:+ "/checkout") = Some "n"%char).
  { rewrite <- (substring_correct1 _ m 7 6) by lia. by rewrite Hi. }
  change ("/" +:+ id_ +:+ "/checkout")
    with (String "/" (id_ +:+ "/checkout")) in Hh, Hn.
  simpl in Hh, Hn. rewrite get_append, Hlen in Hh.
  destruct (Nat.ltb_spec m 24) as [Hlt|Hge].
  { apply (hex_get _ _ _ Hhex) in Hh. discriminate Hh. }
  assert (Hm : m = 26%nat).
  { destruct (m - 24)%nat as [|[|[|k]]] eqn:Hk; simpl in Hh;
      try discriminate Hh; [lia|].
    do 6 (destruct k as [|k]; simpl in Hh; try discriminate Hh). }
  subst m. rewrite get_append, Hlen in Hn. simpl in Hn. discriminate Hn.
Qed.

Lemma sitter_findOne (bookings : gmap string Booking.t) (user : Caller)
    (id_ : string) (booking : Booking.t) :
  ObjectId.isValid id_ = true → bookings !! id_ = Some booking →
  Booking.sitter booking = id user →
  BookingController.findOne bookings id_ None (Some (id user))
  = Http.Ok (Some booking).
Proof.
  intros Hv Hl Hs. unfold BookingController.findOne. rewrite Hv, Hl. simpl.
  by rewrite bool_decide_eq_true_2.
Qed.

Lemma restrictTo_sitter {Doc} (user : Caller) :
  role user = "sitter" → restrictTo (Doc := Doc) ["sitter"] user = None.
Proof. intros Hr. unfold restrictTo. rewrite Hr. reflexivity. Qed.

Lemma checkin_route (db : Db) (user : Caller) (id_ : string)
    (notes : option string) (photos : option (list string)) (now : Z)
    (booking : Booking.t) :
  role user = "sitter" → ObjectId.isValid id_ = true →
  bookings db !! id_ = Some booking → Booking.sitter booking = id user →
  BookingRoutes.checkin db user id_ notes photos now
  = if bool_decide (is_Some (Booking.time (Booking.checkIn booking)))
    then (Http.fail 400 "Already checked in for this booking", db)
    else
      let booking' :=
        Booking.set_status "in_progress"
          (Booking.set_checkIn
             (Booking.mkCheck (Some now) notes (default [] photos)) booking) in
      match Booking.preSave booking' false None with
      | Http.Raise error => (Http.errorMiddleware error, db)
      | Http.Ok _ =>
          (Http.mkResponse 200 "success" None (Http.One booking'),
           set_bookings (<[id_ := booking']> (bookings db)) db)
      end.
Proof.
  intros Hrole Hv Hl Hs. unfold BookingRoutes.checkin.
  rewrite (restrictTo_sitter user Hrole).
  unfold BookingController.checkInOut. cbv zeta.
  rewrite (sitter_findOne _ user id_ booking Hv Hl Hs).
  change ("/" +:+ id_ +:+ "/checkin") with (String "/" id_ +:+ "/checkin").
  rewrite checkin_path. case_bool_decide; [done|].
  unfold Booking.save. simpl.
  by destruct (Booking.preSave _ _ _).
Qed.

Lemma checkout_route (db : Db) (user : Caller) (id_ : string)
    (notes : option string) (photos : option (list string)) (now : Z)
    (booking : Booking.t) :
  role user = "sitter" → ObjectId.isValid id_ = true →
  bookings db !! id_ = Some booking → Booking.sitter booking = id user →
  BookingRoutes.checkout db user id_ notes photos now
  = if negb (bool_decide (is_Some (Booking.time (Booking.checkIn booking))))
    then (Http.fail 400 "Must check in before checking out", db)
    else if bool_decide (is_Some (Booking.time (Booking.checkOut booking)))
    then (Http.fail 400 "Already checked out for this booking", db)
    else
      let booking' :=
        Booking.set_status "completed"
          (Booking.set_checkOut
             (Booking.mkCheck (Some now) notes (default [] photos)) booking) in
      match Booking.preSave booking' false None with
      | Http.Raise error => (Http.errorMiddleware error, db)
      | Http.Ok _ =>
          (Http.mkResponse 200 "success" None (Http.One booking'),
           set_bookings (<[id_ := booking']> (bookings db)) db)
      end.
Proof.
  intros Hrole Hv Hl Hs. unfold BookingRoutes.checkout.
  rewrite (restrictTo_sitter user Hrole).
  unfold BookingController.checkInOut. cbv zeta.
  rewrite (sitter_findOne _ user id_ booking Hv Hl Hs).
  rewrite (checkout_path id_ Hv).
  case_bool_decide; simpl; [|done]. case_bool_decide; [done|].
  unfold Booking.save. simpl.
  by destruct (Booking.preSave _ _ _).
Qed.

(** X6. The order of check-in and check-out is enforced: a check-out before any
    check-in, a second check-in and a second check-out are each answered
    400, and none of them writes anything. *)
Theorem checkInOut_refusals (db : Db) (user : Caller) (id_ : string)
    (notes : option string) (photos : option (list string)) (now : Z)
    (booking : Booking.t) :
  role user = "sitter" → ObjectId.isValid id_ = true →
  bookings db !! id_ = Some booking → Booking.sitter booking = id user →
  (Booking.time (Booking.checkIn booking) = None →
     BookingRoutes.checkout db user id_ notes photos now
     = (Http.fail 400 "Must check in before checking out", db))
  ∧ (is_Some (Booking.time (Booking.checkIn booking)) →
     BookingRoutes.checkin db user id_ notes photos now
     = (Http.fail 400 "Already checked in for this booking", db))
  ∧ (is_Some (Booking.time (Booking.checkIn booking)) →
     is_Some (Booking.time (Booking.checkOut booking)) →
     BookingRoutes.checkout db user id_ notes photos now
     = (Http.fail 400 "Already checked out for this booking", db)).
Proof.
  intros Hrole Hv Hl Hs. split; [|split].
  - intros Hnone. rewrite (checkout_route db user id_ _ _ _ booking) by done.
    rewrite Hnone. rewrite bool_decide_eq_false_2; [done|]. by intros [? ?].
  - intros Hin. rewrite (checkin_route db user id_ _ _ _ booking) by done.
    by rewrite bool_decide_eq_true_2.
  - intros Hin Hout. rewrite (checkout_route db user id_ _ _ _ booking) by done.
    by rewrite !bool_decide_eq_true_2.
Qed.

Lemma checkInOut_refusals_witness :
  BookingRoutes.checkout Sample.booked Sample.carol Sample.bookingId None None
    2000000
  = (Http.fail 400 "Must check in before checking out", Sample.booked).
Proof.
  exact (proj1 (checkInOut_refusals Sample.booked Sample.carol Sample.bookingId
    None None 2000000 _ eq_refl eq_refl eq_refl eq_refl) eq_refl).
Defined.



Lemma checkin_ignores_status_witness :
  ∃ booking',
    bookings (BookingRoutes.checkin Sample.cancelled Sample.carol
                Sample.bookingId None None 2000000).2 !! Sample.bookingId
    = Some booking'
    ∧ Booking.status booking' = "in_progress".
Proof.
  exact (proj2 (proj2 (checkin_ignores_status Sample.cancelled Sample.carol
    Sample.bookingId None None 2000000 _
    eq_refl eq_refl eq_refl eq_refl eq_refl eq_refl))).
Defined.

(** ** Progress updates *)



Lemma cancellation_refund_single_instant_witness :
  ∃ booking' c,
    bookings (BookingRoutes.patchStatus Sample.booked Sample.alice
                Sample.bookingId "cancelled" None (λ _, 1000000)).2
      !! Sample.bookingId = Some booking'
    ∧ Booking.cancellation booking' = Some c.
Proof.
  destruct (cancellation_refund_single_instant Sample.booked Sample.alice
    Sample.bookingId None 1000000 eq_refl)
    as (booking & booking' & c & _ & Hl & Hc & _).
  exists booking', c. exact (conj Hl Hc).
Defined.

(** ** Reading a booking *)

(** X9. GET /bookings/:id is scoped by role: an owner gets a booking only if
    they own it, a sitter only if they are its sitter; every other request
    is answered 404, never 403. *)
Theorem getBooking_scoped (db : Db) (user : Caller) (id_ : string) :
  role user ∈ ["owner"; "sitter"] →
  let r := BookingViews.getBooking db user id_ in
  (Http.isSuccess r →
     ∃ booking, Http.data r = Http.One booking
       ∧ bookings db !! id_ = Some booking
       ∧ (role user = "owner" → Booking.owner booking = id user)
       ∧ (role user = "sitter" → Booking.sitter booking = id user))
  ∧ (¬ Http.isSuccess r → Http.isNotFound r)
  ∧ ¬ Http.isForbidden r
  ∧ (∀ booking, bookings db !! id_ = Some booking →
       Booking.owner booking ≠ id user → Booking.sitter booking ≠ id user →
       Http.isNotFound r).
Proof.
  intros Hrole r. subst r. unfold BookingViews.getBooking.
  rewrite !elem_of_cons, elem_of_nil in Hrole.
  assert (Hcast : ∀ o s e,
    BookingController.findOne (bookings db) id_ o s = Http.Raise e →
    Http.errorMiddleware (Doc := Booking.t) e
    = Http.mkResponse 404 "fail" (Some "Resource not found") Http.NoData).
  { intros o s e He. by rewrite (booking_findOne_fails _ _ _ _ _ He). }
  destruct Hrole as [Hr|[Hr|[]]]; rewrite Hr; simpl;
    (destruct (BookingController.findOne (bookings db) id_ _ _)
       as [[booking|]|e] eqn:Hf;
     [apply booking_findOne_Some in Hf as (Hl & Ho & Hs); simpl in Ho, Hs
     | | rewrite (Hcast _ _ _ Hf)]);
    repeat split; try done; try discriminate;
    try (intros Hne; exfalso; by apply Hne).
  - intros _. exists booking. apply bool_decide_eq_true_1 in Ho.
    repeat split; try done; intros; congruence.
  - intros b Hb Hno _. rewrite Hl in Hb. injection Hb as <-.
    apply bool_decide_eq_true_1 in Ho. done.
  - intros _. exists booking. apply bool_decide_eq_true_1 in Hs.
    repeat split; try done; intros; congruence.
  - intros b Hb _ Hno. rewrite Hl in Hb. injection Hb as <-.
    apply bool_decide_eq_true_1 in Hs. done.
Qed.

Lemma getBooking_scoped_witness :
  Http.isNotFound (BookingViews.getBooking Sample.booked Sample.bob Sample.bookingId).
Proof.
  refine (proj2 (proj2 (proj2 (getBooking_scoped Sample.booked Sample.bob
    Sample.bookingId _))) _ eq_refl _ _).
  - apply list_elem_of_here.
  - discriminate.
  - discriminate.
Defined.

(** ** Prices and durations *)

Lemma span_monotone (start end_ end' : Z) :
  start ≤ end_ → end_ ≤ end' →
  (BookingController.span start end_ <= BookingController.span start end')%Q.
Proof.
  intros H1 H2. unfold BookingController.span.
  rewrite !Qabs_inject_Z_pos by lia. rewrite <- Zle_Qle. lia.
Qed.

Lemma units_monotone (x y : Q) (unit : Z) :
  0 < unit → (x <= y)%Q →
  (inject_Z (Qceiling (x / inject_Z unit))
   <= inject_Z (Qceiling (y / inject_Z unit)))%Q.
Proof.
  intros Hu Hxy. rewrite <- Zle_Qle. apply Qceiling_resp_le.
  apply Qmult_le_compat_r; [done|].
  apply Qlt_le_weak, Qinv_lt_0_compat. rewrite (Zlt_Qlt 0 unit) in Hu. done.
Qed.

Lemma span_nonneg (start end_ : Z) : (0 <= BookingController.span start end_)%Q.
Proof. apply Qabs_nonneg. Qed.

Lemma units_nonneg (x : Q) (unit : Z) :
  0 < unit → (0 <= x)%Q → (0 <= inject_Z (Qceiling (x / inject_Z unit)))%Q.
Proof.
  intros Hu Hx. change 0%Q with (inject_Z 0). rewrite <- Zle_Qle.
  change 0 with (Qceiling 0). apply Qceiling_resp_le.
  apply Qmult_le_0_compat; [done|].
  apply Qlt_le_weak, Qinv_lt_0_compat. rewrite (Zlt_Qlt 0 unit) in Hu. done.
Qed.

(** X10. Pricing is sane for every price type: with a non-negative price the
    price of a reservation is non-negative, and keeping the start, a later
    end never costs less. *)
Theorem basePrice_nonneg_monotone (service : Service.t) (start end_ end' : Z) :
  (0 <= Service.price service)%Q → start ≤ end_ → end_ ≤ end' →
  (0 <= BookingController.basePrice service start end_)%Q
  ∧ (BookingController.basePrice service start end_
     <= BookingController.basePrice service start end')%Q.
Proof.
  intros Hp H1 H2. unfold BookingController.basePrice.
  pose proof (span_monotone start end_ end' H1 H2) as Hs.
  pose proof (span_nonneg start end_) as H0.
  repeat case_bool_decide; split;
    try (apply Qmult_le_0_compat; [done|]; apply units_nonneg; [lia|done]);
    try (rewrite !(Qmult_comm (Service.price service));
         apply Qmult_le_compat_r; [|done]; apply units_monotone; [lia|done]);
    try done; apply Qle_refl.
Qed.

Lemma basePrice_nonneg_monotone_witness :
  (BookingController.basePrice Sample.walk Sample.start (Sample.start + 1)
   <= BookingController.basePrice Sample.walk Sample.start
        (Sample.start + Sample.hour + 1))%Q.
Proof.
  refine (proj2 (basePrice_nonneg_monotone Sample.walk Sample.start
    (Sample.start + 1) (Sample.start + Sample.hour + 1) _ _ _)).
  - discriminate.
  - vm_compute. discriminate.
  - vm_compute. discriminate.
Defined.

Lemma hours_in_days (x : Q) :
  (x / inject_Z 3600000 == 24 * (x / inject_Z (1000 * 60 * 60 * 24)))%Q.
Proof.
  destruct x as [n d]. unfold Qeq, Qdiv, Qmult, Qinv, inject_Z. simpl. lia.
Qed.

(** X11. The virtual [durationDays] is the least whole number of days that
    covers [durationHours], whichever of the two dates comes first. *)
Theorem durationDays_covers_hours (b : Booking.t) :
  (BookingViews.durationHours b <= inject_Z (24 * BookingViews.durationDays b))%Q
  ∧ (inject_Z (24 * (BookingViews.durationDays b - 1))
     < BookingViews.durationHours b)%Q.
Proof.
  unfold BookingViews.durationHours, BookingViews.durationDays.
  set (x := Qabs (inject_Z (Booking.endDate b - Booking.startDate b))).
  pose proof (Qle_ceiling (x / inject_Z (1000 * 60 * 60 * 24))) as Hle.
  pose proof (Qceiling_lt (x / inject_Z (1000 * 60 * 60 * 24))) as Hlt.
  set (d := Qceiling (x / inject_Z (1000 * 60 * 60 * 24))) in *.
  rewrite !inject_Z_mult, hours_in_days.
  change (inject_Z 24) with 24%Q. split.
  - apply (proj2 (Qmult_le_l _ _ 24 eq_refl)). exact Hle.
  - apply (proj2 (Qmult_lt_l _ _ 24 eq_refl)). exact Hlt.
Qed.

Lemma round_whole (k : Z) : BookingViews.round (inject_Z k) = k.
Proof.
  unfold BookingViews.round, Qfloor, Qplus, inject_Z. simpl.
  symmetry. apply Z.div_unique with (r := 1); lia.
Qed.

Lemma durationHours_whole (b : Booking.t) (k : Z) :
  Z.abs (Booking.endDate b - Booking.startDate b) = k * 3600000 →
  (BookingViews.durationHours b == inject_Z k)%Q.
Proof.
  intros Hk. unfold BookingViews.durationHours, Qabs, inject_Z, Qeq, Qdiv,
    Qmult, Qinv. simpl. rewrite Hk. lia.
Qed.

(** X12. For a whole number of hours below a day, or a whole number of days,
    [durationString] prints that number with its unit, in the singular
    exactly for 1. *)
Theorem durationString_whole (b : Booking.t) (n : Z) :
  (0 ≤ n < 24 →
   Z.abs (Booking.endDate b - Booking.startDate b) = n * 3600000 →
   BookingViews.durationString b
   = pretty n +:+ " hour" +:+ (if bool_decide (n ≠ 1) then "s" else ""))
  ∧ (1 ≤ n →
     Z.abs (Booking.endDate b - Booking.startDate b) = n * 86400000 →
     BookingViews.durationString b
     = pretty n +:+ " day" +:+ (if bool_decide (n ≠ 1) then "s" else "")).
Proof.
  split.
  - intros Hn Hk. pose proof (durationHours_whole b n Hk) as Hh.
    unfold BookingViews.durationString.
    assert (Hlt : Booking.gt 24 (BookingViews.durationHours b) = true).
    { apply gt_true. rewrite Hh. change 24%Q with (inject_Z 24).
      rewrite <- Zlt_Qlt. lia. }
    rewrite Hlt.
    assert (Hr : BookingViews.round (BookingViews.durationHours b) = n).
    { unfold BookingViews.round. rewrite Hh. apply round_whole. }
    by rewrite Hr.
  - intros Hn Hk.
    assert (Hk' : Z.abs (Booking.endDate b - Booking.startDate b)
                  = (24 * n) * 3600000) by lia.
    pose proof (durationHours_whole b (24 * n) Hk') as Hh.
    unfold BookingViews.durationString.
    assert (Hge : Booking.gt 24 (BookingViews.durationHours b) = false).
    { apply gt_false. rewrite Hh. change 24%Q with (inject_Z 24).
      rewrite <- Zle_Qle. lia. }
    rewrite Hge.
    assert (Hd : BookingViews.durationDays b = n).
    { unfold BookingViews.durationDays.
      assert (Hq : (Qabs (inject_Z (Booking.endDate b - Booking.startDate b))
                    / inject_Z (1000 * 60 * 60 * 24) == inject_Z n)%Q).
      { unfold Qabs, inject_Z, Qeq, Qdiv, Qmult, Qinv. simpl. rewrite Hk. lia. }
      rewrite Hq. apply Qceiling_Z. }
    by rewrite Hd.
Qed.

Lemma durationString_whole_witness :
  BookingViews.durationString
    (BookingController.bookingData Sample.alice (id Sample.carol) Sample.board
       Sample.boardBody)
  = "2 days".
Proof.
  exact (proj2 (durationString_whole
    (BookingController.bookingData Sample.alice (id Sample.carol) Sample.board
       Sample.boardBody) 2) ltac:(lia) eq_refl).
Defined.

(** X13. A booking that may still be modified may also still be cancelled, and a
    booking that can be reviewed can be neither. *)
Theorem canBeModified_canBeCancelled (b : Booking.t) (now : Z) :
  (BookingViews.canBeModified b now = true →
   Booking.canBeCancelled b now = true)
  ∧ (∀ hasReview, BookingViews.canBeReviewed b hasReview = true →
       Booking.canBeCancelled b now = false
       ∧ BookingViews.canBeModified b now = false).
Proof.
  unfold BookingViews.canBeModified, BookingViews.canBeReviewed,
    Booking.canBeCancelled. split.
  - repeat case_bool_decide; simpl; try done; try congruence;
      rewrite !gt_true; intros Hgt; (eapply Qlt_trans; [|exact Hgt]);
      reflexivity.
  - intros hasReview. repeat case_bool_decide; simpl; try done; congruence.
Qed.

Lemma canBeModified_canBeCancelled_witness :
  Booking.canBeCancelled
    (BookingController.bookingData Sample.alice (id Sample.carol) Sample.walk
       Sample.walkBody) 1000000 = true.
Proof.
  exact (proj1 (canBeModified_canBeCancelled
    (BookingController.bookingData Sample.alice (id Sample.carol) Sample.walk
       Sample.walkBody) 1000000) eq_refl).
Defined.

(** ** Pets: what the handlers can reach *)



Lemma newestFirst_total (createdAt : string → Z) :
  Total (PetUploads.newestFirst createdAt).
Proof. intros x y. unfold PetUploads.newestFirst. lia. Qed.

Lemma elem_of_getPets (pets : gmap string Pet.t) (createdAt : string → Z)
    (user : Caller) (id_ : string) (pet : Pet.t) :
  (id_, pet) ∈ merge_sort (PetUploads.newestFirst createdAt)
                 (PetUploads.find pets (id user))
  ↔ pets !! id_ = Some pet ∧ Pet.owner pet = id user ∧ Pet.isActive pet = true.
Proof.
  rewrite merge_sort_Permutation. unfold PetUploads.find.
  rewrite list_elem_of_filter, elem_of_map_to_list. simpl. tauto.
Qed.

(** X15. GET /pets lists exactly the caller's active pets, each once, newest
    first, and reports their number. *)
Theorem getPets_lists_own_active_pets (pets : gmap string Pet.t)
    (createdAt : string → Z) (user : Caller) :
  ∃ listed,
    PetUploads.getPets pets createdAt user
    = (Http.mkResponse 200 "success" None (Http.One listed), length listed)
    ∧ (∀ id_ pet, (id_, pet) ∈ listed
         ↔ pets !! id_ = Some pet ∧ Pet.owner pet = id user
           ∧ Pet.isActive pet = true)
    ∧ NoDup listed.*1
    ∧ Sorted (PetUploads.newestFirst createdAt) listed.
Proof.
  eexists. split; [reflexivity|]. split; [|split].
  - intros id_ pet. apply elem_of_getPets.
  - rewrite merge_sort_Permutation. unfold PetUploads.find.
    eapply sublist_NoDup; [apply (NoDup_fst_map_to_list pets)|].
    apply fmap_sublist, sublist_filter.
  - apply (@Sorted_merge_sort _ _ _ (newestFirst_total createdAt)).
Qed.





(** ** Accounts *)

Lemma head_filter_map_unique {A} (P : string * A → Prop)
    `{∀ x, Decision (P x)} (m : gmap string A) (k : string) (v : A) :
  m !! k = Some v → P (k, v) →
  (∀ k' v', m !! k' = Some v' → P (k', v') → k' = k) →
  head (filter P (map_to_list m)) = Some (k, v).
Proof.
  intros Hl HP Huniq.
  assert (Hin : (k, v) ∈ filter P (map_to_list m)).
  { apply list_elem_of_filter. split; [done|]. by apply elem_of_map_to_list. }
  assert (Hall : ∀ y, y ∈ filter P (map_to_list m) → y = (k, v)).
  { intros [k' v'] Hy. apply list_elem_of_filter in Hy as [HP' Hy].
    apply elem_of_map_to_list in Hy.
    assert (k' = k) by (by eapply Huniq). subst k'. congruence. }
  destruct (filter P (map_to_list m)) as [|a l].
  - by apply elem_of_nil in Hin.
  - simpl. f_equal. apply Hall. left.
Qed.

Lemma uniqueEmails_alter (users : gmap string User.t) (f : User.t → User.t)
    (uid : string) :
  (∀ u, User.email (f u) = User.email u) →
  Account.uniqueEmails users → Account.uniqueEmails (alter f uid users).
Proof.
  intros Hf Huniq i j ui uj Hi Hj He.
  apply lookup_alter_Some in Hi, Hj.
  destruct Hi as [(_ & ui0 & Hi & ->) | (_ & Hi)],
           Hj as [(_ & uj0 & Hj & ->) | (_ & Hj)];
    rewrite ?Hf in He; by eapply Huniq.
Qed.

Section AccountProperties.

Variable jwtVerify : string → Http.Try (option string).
Variable jwtSign : string → string → string → Http.Try string.
Variable castEmail : string → string.
Variable toLowerCase : string → string.
Variable bcryptCompare : string → string → bool.

(** X18. [protect] lets a request through exactly when its bearer token verifies
    to the id of a stored, active account, and then hands on that account
    without its password hash; every refusal is a 401 or a 500. *)
Theorem protect_admits_exactly_active_accounts {Doc}
    (users : gmap string User.t) (authorization : option string) :
  (∀ uid u',
     Account.protect (Doc := Doc) jwtVerify users authorization = inr (uid, u')
     ↔ ∃ token u,
         Account.bearer authorization = Some token ∧ token ≠ ""
         ∧ jwtVerify token = Http.Ok (Some uid)
         ∧ ObjectId.isValid uid = true
         ∧ users !! uid = Some u ∧ User.isActive u = true
         ∧ u' = User.set_password None u)
  ∧ (∀ r,
       Account.protect (Doc := Doc) jwtVerify users authorization = inl r →
       ¬ Http.isSuccess r ∧ (Http.code r = 401 ∨ Http.code r = 500)).
Proof.
  unfold Account.protect, BookingController.truthy, Http.isSuccess.
  destruct (Account.bearer authorization) as [token|]; simpl.
  2: { split.
       - intros uid u'. split; [discriminate|]. by intros (? & ? & ? & _).
       - intros r [= <-]. simpl. split; [discriminate | by left]. }
  case_bool_decide as Htok; simpl.
  { split.
    - intros uid u'. split; [discriminate|].
      intros (? & ? & [= <-] & Hne & _). done.
    - intros r [= <-]. simpl. split; [discriminate | by left]. }
  destruct (jwtVerify token) as [[uid0|]|error] eqn:Hverify.
  - destruct (ObjectId.isValid uid0) eqn:Hvalid.
    + destruct (users !! uid0) as [currentUser|] eqn:Hlook.
      * destruct (User.isActive currentUser) eqn:Hact; simpl.
        -- split; [|discriminate].
           intros uid u'. split.
           ++ intros [= <- <-]. exists token, currentUser. by rewrite Hverify.
           ++ intros (? & u & [= <-] & _ & Hv & _ & Hu & _ & ->).
              rewrite Hverify in Hv. injection Hv as <-.
              rewrite Hlook in Hu. by injection Hu as <-.
        -- split.
           ++ intros uid u'. split; [discriminate|].
              intros (? & u & [= <-] & _ & Hv & _ & Hu & Ha & _).
              rewrite Hverify in Hv. injection Hv as <-.
              rewrite Hlook in Hu. injection Hu as <-. congruence.
           ++ intros r [= <-]. simpl. split; [discriminate | by left].
      * split.
        -- intros uid u'. split; [discriminate|].
           intros (? & u & [= <-] & _ & Hv & _ & Hu & _).
           rewrite Hverify in Hv. injection Hv as <-. congruence.
        -- intros r [= <-]. simpl. split; [discriminate | by left].
    + split.
      * intros uid u'. split; [discriminate|].
        intros (? & u & [= <-] & _ & Hv & Hval & _).
        rewrite Hverify in Hv. injection Hv as <-. congruence.
      * intros r [= <-]. simpl. split; [discriminate | by right].
  - split.
    + intros uid u'. split; [discriminate|].
      intros (? & u & [= <-] & _ & Hv & _). congruence.
    + intros r [= <-]. simpl. split; [discriminate | by left].
  - split.
    + intros uid u'. split; [discriminate|].
      intros (? & u & [= <-] & _ & Hv & _). congruence.
    + intros r [= <-]. repeat case_bool_decide; simpl;
        (split; [discriminate | auto]).
Qed.

Lemma findOne_by_email (users : gmap string User.t) (uid email : string)
    (u : User.t) :
  Account.uniqueEmails users → users !! uid = Some u →
  castEmail email = User.email u →
  AuthController.findOne castEmail users email = Some (uid, u).
Proof.
  intros Huniq Hl He. unfold AuthController.findOne.
  apply head_filter_map_unique; [done | by simpl |].
  intros k' v' Hl' He'. simpl in He'.
  eapply Huniq; [done | done | congruence].
Qed.

(** X19. Deactivating an account locks it out and touches nothing else: DELETE
    /auth/me answers 200 and clears [isActive] of the caller's account
    only; from then on [protect] answers 401 to every token of the
    account, and every login with its email is refused, whatever the
    password. *)
Theorem deleteMe_locks_the_account_out (users : gmap string User.t)
    (uid : string) (u : User.t) :
  Account.uniqueEmails users → ObjectId.isValid uid = true →
  users !! uid = Some u →
  let r := (Account.deleteMe users (Account.callerOf uid u)).1 in
  let users' := (Account.deleteMe users (Account.callerOf uid u)).2 in
  Http.code r = 200
  ∧ users' = <[uid := Account.set_isActive false u]> users
  ∧ (∀ authorization token,
       Account.bearer authorization = Some token →
       jwtVerify token = Http.Ok (Some uid) →
       ∃ refusal,
         Account.protect (Doc := unit) jwtVerify users' authorization
         = inl refusal
         ∧ Http.code refusal = 401)
  ∧ (∀ email password now,
       castEmail email = User.email u →
       AuthController.login castEmail bcryptCompare jwtSign users' email
         password now
       = (AuthController.invalidLogin, users')).
Proof.
  intros Huniq Hv Hl r users'. subst r users'.
  unfold Account.deleteMe. simpl. rewrite Hv. simpl.
  assert (Halter : alter (Account.set_isActive false) uid users
                   = <[uid := Account.set_isActive false u]> users).
  { apply map_eq. intros k. destruct (decide (k = uid)) as [->|Hne].
    - by rewrite lookup_alter_eq, lookup_insert_eq, Hl.
    - by rewrite lookup_alter_ne, lookup_insert_ne. }
  split; [done|]. split; [done|]. split.
  - intros authorization token Hb Hver.
    unfold Account.protect. rewrite Hb. simpl.
    case_bool_decide; simpl; [by eexists|].
    rewrite Hver, Hv, Halter, lookup_insert_eq. simpl. by eexists.
  - intros email password now He.
    apply login_refused.
    apply (AuthController.Deactivated _ _ _ _ _ uid
             (Account.set_isActive false u)); [|reflexivity].
    apply findOne_by_email.
    + by apply uniqueEmails_alter.
    + by rewrite Halter, lookup_insert_eq.
    + done.
Qed.


(** X21. A reactivation request writes at most one thing: it sets [isActive] on
    one deactivated account with the given email, and only when the
    password presented matches the hash of that account; every answer that
    is not a success of this kind is a 4xx or 5xx. *)
Theorem reactivateAccount_needs_the_password (users : gmap string User.t)
    (email password : option string) :
  let r := (Account.reactivateAccount jwtSign castEmail toLowerCase
              bcryptCompare users email password).1 in
  let users' := (Account.reactivateAccount jwtSign castEmail toLowerCase
                   bcryptCompare users email password).2 in
  (users' = users ∧ ¬ Http.isSuccess r ∧ 400 ≤ Http.code r)
  ∨ (∃ uid u hash e p,
       email = Some e ∧ password = Some p
       ∧ users !! uid = Some u ∧ User.isActive u = false
       ∧ User.email u = castEmail (toLowerCase e)
       ∧ User.password u = Some hash ∧ bcryptCompare p hash = true
       ∧ users' = <[uid := Account.set_isActive true u]> users
       ∧ (Http.isSuccess r →
          ∃ token, Http.data r
                   = Http.One (token, User.set_password None
                                        (Account.set_isActive true u)))).
Proof.
  intros r users'. subst r users'.
  unfold Account.reactivateAccount, BookingController.truthy, Http.isSuccess.
  destruct email as [e|]; [|left; simpl; repeat split; [discriminate | lia]].
  destruct password as [p|]; simpl.
  2: { left. rewrite orb_true_r. simpl. repeat split; [discriminate | lia]. }
  destruct (bool_decide (e = "")); simpl;
    [left; repeat split; [discriminate | lia]|].
  destruct (bool_decide (p = "")); simpl;
    [left; repeat split; [discriminate | lia]|].
  destruct (Account.findDeactivated castEmail toLowerCase users e)
    as [[uid u]|] eqn:Hfind; simpl;
    [|left; repeat split; [discriminate | lia]].
  assert (Hin : (uid, u) ∈ filter (λ kv : string * User.t,
                  User.email kv.2 = castEmail (toLowerCase e)
                  ∧ User.isActive kv.2 = false) (map_to_list users)).
  { unfold Account.findDeactivated in Hfind.
    destruct (filter _ (map_to_list users)) as [|a l]; [discriminate|].
    simpl in Hfind. injection Hfind as ->. left. }
  apply list_elem_of_filter in Hin as [[He Ha] Hin]. simpl in He, Ha.
  apply elem_of_map_to_list in Hin.
  destruct (User.password u) as [hash|] eqn:Hhash; simpl.
  2: { left. split; [done|]. unfold Account.errorMiddleware. simpl.
       split; [discriminate | lia]. }
  destruct (bcryptCompare p hash) eqn:Hcmp; simpl;
    [|left; repeat split; [discriminate | lia]].
  assert (Halter : alter (Account.set_isActive true) uid users
                   = <[uid := Account.set_isActive true u]> users).
  { apply map_eq. intros k. destruct (decide (k = uid)) as [->|Hne].
    - by rewrite lookup_alter_eq, lookup_insert_eq, Hin.
    - by rewrite lookup_alter_ne, lookup_insert_ne. }
  rewrite Halter, lookup_insert_eq. right.
  exists uid, u, hash, e, p. do 7 (split; [done|]).
  unfold Account.createSendToken.
  destruct (jwtSign uid _ _) as [token|error]; simpl.
  - split; [done|]. intros _. by exists token.
  - split; [done|]. intros Hs. exfalso. revert Hs.
    unfold Account.errorMiddleware. repeat case_bool_decide; simpl; discriminate.
Qed.

End AccountProperties.

Lemma uniqueEmails_NoDup (users : gmap string User.t) :
  NoDup ((λ kv : string * User.t, User.email kv.2) <$> map_to_list users) →
  Account.uniqueEmails users.
Proof.
  intros Hnd i j ui uj Hi Hj He.
  apply elem_of_map_to_list, list_elem_of_lookup in Hi as [a Ha].
  apply elem_of_map_to_list, list_elem_of_lookup in Hj as [b Hb].
  assert (a = b).
  { eapply NoDup_lookup; [exact Hnd | |].
    - rewrite list_lookup_fmap, Ha. reflexivity.
    - rewrite list_lookup_fmap, Hb. simpl. by rewrite He. }
  subst b. congruence.
Qed.

Lemma sample_uniqueEmails : Account.uniqueEmails Sample.users.
Proof.
  apply uniqueEmails_NoDup.
  apply (bool_decide_unpack _ (dec := NoDup_dec _)). vm_compute. reflexivity.
Qed.

Lemma deleteMe_locks_the_account_out_witness :
  (AuthController.login Sample.castEmail Sample.bcryptCompare Sample.jwtSign
     (Account.deleteMe Sample.users Sample.alice).2
     "alice@example.com" "wonderland" 5000).1
  = AuthController.invalidLogin.
Proof.
  refine (f_equal fst
    (proj2 (proj2 (proj2 (deleteMe_locks_the_account_out Example.jwtVerify
       Sample.jwtSign Sample.castEmail Sample.bcryptCompare Sample.users
       (id Sample.alice)
       (User.mk "Alice" "alice@example.com" (Some "hash:wonderland")
          "owner" true None)
       sample_uniqueEmails eq_refl _)))
     "alice@example.com" "wonderland" 5000 eq_refl)).
  vm_compute. reflexivity.
Defined.


(** ** Services: the soft delete *)



(** X23. What has been soft-deleted cannot be booked: once DELETE /pets/:id has
    succeeded for a pet, or DELETE /services/:id/manage for a service, every
    POST /bookings that names that pet or that service fails, whoever sends
    it, and stores nothing. *)
Theorem deleted_pet_or_service_cannot_be_booked (db : Db)
    (deleter caller : Caller) (id_ : string) (body : Validation.BookingBody)
    (newId : string) (clock : nat → Z) :
  (Http.isSuccess (PetRoutes.delete (pets db) deleter id_).1 →
   Validation.pet body = id_ →
   let db1 := set_pets (PetRoutes.delete (pets db) deleter id_).2 db in
   ¬ Http.isSuccess (BookingRoutes.post db1 caller body newId clock).1
   ∧ (BookingRoutes.post db1 caller body newId clock).2 = db1)
  ∧ (Http.isSuccess (ServiceRoutes.delete (services db) deleter id_).1 →
     Validation.service body = id_ →
     let db1 :=
       set_services (ServiceRoutes.delete (services db) deleter id_).2 db in
     ¬ Http.isSuccess (BookingRoutes.post db1 caller body newId clock).1
     ∧ (BookingRoutes.post db1 caller body newId clock).2 = db1).
Proof.
  split.
  - intros Hok Hbody db1.
    assert (Hgone : ∃ pet, pets db1 !! id_ = Some pet ∧ Pet.isActive pet = false).
    { subst db1. revert Hok.
      unfold PetRoutes.delete, PetController.deletePet, Http.isSuccess.
      destruct (restrictTo ["owner"] deleter) as [denied|] eqn:Hgate.
      { unfold restrictTo in Hgate.
        destruct (negb (bool_decide (role deleter ∈ ["owner"]))); [|discriminate].
        injection Hgate as <-. discriminate. }
      destruct (Pet.findOne (pets db) id_ (id deleter)) as [[pet|]|e]; simpl.
      - intros _. eexists. by rewrite lookup_insert_eq.
      - discriminate.
      - intros Hs. by destruct (errorMiddleware_fails (Doc := Pet.t) e). }
    destruct Hgone as (gone & Hl & Ha).
    destruct (post_cases db1 caller body newId clock)
      as [(Hfail & _ & Hdb) | (service & pet & Hs)]; [done|].
    cbv zeta in Hs. destruct Hs as (_ & _ & _ & _ & Hl' & _ & Ha' & _).
    rewrite Hbody, Hl in Hl'. congruence.
  - intros Hok Hbody db1.
    assert (Hgone : ∃ service, services db1 !! id_ = Some service
                               ∧ Service.isActive service = false).
    { subst db1. revert Hok.
      unfold ServiceRoutes.delete, ServiceController.deleteService,
        Http.isSuccess.
      destruct (restrictTo ["sitter"] deleter) as [denied|] eqn:Hgate.
      { unfold restrictTo in Hgate.
        destruct (negb (bool_decide (role deleter ∈ ["sitter"]))); [|discriminate].
        injection Hgate as <-. discriminate. }
      destruct (ServiceController.findOwn (services db) id_ (id deleter))
        as [[service|]|e]; simpl.
      - intros _. eexists. by rewrite lookup_insert_eq.
      - discriminate.
      - intros Hs. by destruct (errorMiddleware_fails (Doc := Service.t) e). }
    destruct Hgone as (gone & Hl & Ha).
    destruct (post_cases db1 caller body newId clock)
      as [(Hfail & _ & Hdb) | (service & pet & Hs)]; [done|].
    cbv zeta in Hs. destruct Hs as (_ & _ & Hl' & Ha' & _).
    rewrite Hbody, Hl in Hl'. congruence.
Qed.

Lemma deleted_pet_or_service_cannot_be_booked_witness :
  (BookingRoutes.post
     (set_pets (PetRoutes.delete (pets Sample.db) Sample.alice Sample.rexId).2
        Sample.db)
     Sample.alice Sample.walkBody Sample.bookingId Sample.clock).2
  = set_pets (PetRoutes.delete (pets Sample.db) Sample.alice Sample.rexId).2
      Sample.db.
Proof.
  exact (proj2 (proj1 (deleted_pet_or_service_cannot_be_booked Sample.db
    Sample.alice Sample.alice Sample.rexId Sample.walkBody Sample.bookingId
    Sample.clock) eq_refl eq_refl)).
Defined.

(** ** Creating a booking *)





(** ** Identifiers that are not ObjectIds *)



(** ** Changing the password *)


Section PasswordProperties.

Variable jwtSign : string → string → string → Http.Try string.
Variable castEmail : string → string.
Variable bcryptCompare : string → string → bool.
Variable bcryptHash : string → string.


(** X27. A password is never changed without the current one: whatever the
    request, the stored accounts stay as they are unless the text sent as
    current password matches the stored hash of the caller's account, and
    then only the hash of that account is replaced, by the hash of a new
    password of at least 6 characters. *)
Theorem updatePassword_needs_the_current_password (users : gmap string User.t)
    (user : Caller) (currentPassword newPassword : option string) :
  let users' := (Account.updatePassword jwtSign bcryptCompare bcryptHash users
                   user currentPassword newPassword).2 in
  users' = users
  ∨ (∃ account hash current new,
       currentPassword = Some current ∧ newPassword = Some new
       ∧ users !! id user = Some account
       ∧ User.password account = Some hash
       ∧ bcryptCompare current hash = true
       ∧ (6 ≤ String.length new)%nat
       ∧ users' = <[id user := User.set_password (Some (bcryptHash new)) account]>
                    users).
Proof.
  intros users'. subst users'.
  unfold Account.updatePassword, BookingController.truthy.
  destruct currentPassword as [current|]; [|by left].
  destruct newPassword as [new|]; simpl; [|left; by rewrite orb_true_r].
  destruct (bool_decide (current = "")); simpl; [by left|].
  destruct (bool_decide (new = "")); simpl; [by left|].
  destruct (ObjectId.isValid (id user)); simpl; [|by left].
  destruct (users !! id user) as [account|] eqn:Hl; [|by left].
  destruct (User.password account) as [hash|] eqn:Hhash; [|by left].
  destruct (bcryptCompare current hash) eqn:Hcmp; simpl; [|by left].
  case_bool_decide as Hsame; simpl.
  - left. unfold Account.createSendToken.
    destruct (jwtSign _ _ _); simpl; by apply insert_id.
  - destruct (Nat.ltb_spec (String.length new) 6) as [?|Hlen]; [by left|].
    right. exists account, hash, current, new.
    do 6 (split; [done|]).
    unfold Account.createSendToken. simpl. by destruct (jwtSign _ _ _).
Qed.

End PasswordProperties.


(** ** The running average of ratings *)

Lemma updateRating_step (rating : Rating.t) (r : Q) :
  0 ≤ Rating.count rating →
  ∃ rating',
    Rating.updateRating rating r = Some rating'
    ∧ Rating.count rating' = Rating.count rating + 1
    ∧ (Rating.average rating' * inject_Z (Rating.count rating')
       == Rating.average rating * inject_Z (Rating.count rating) + r)%Q.
Proof.
  intros Hc. unfold Rating.updateRating.
  rewrite bool_decide_eq_false_2 by lia.
  eexists. split; [reflexivity|]. split; [reflexivity|]. simpl.
  rewrite Qmult_comm. apply Qmult_div_r.
  change 0%Q with (inject_Z 0). rewrite inject_Z_injective. lia.
Qed.

Lemma updateRating_fold (ratings : list Q) (rating : Rating.t) :
  0 ≤ Rating.count rating →
  ∃ final,
    foldl (λ acc r, acc ≫= λ rating, Rating.updateRating rating r)
      (Some rating) ratings = Some final
    ∧ Rating.count final = Rating.count rating + Z.of_nat (length ratings)
    ∧ (Rating.average final * inject_Z (Rating.count final)
       == Rating.average rating * inject_Z (Rating.count rating)
          + foldr Qplus 0 ratings)%Q.
Proof.
  revert rating. induction ratings as [|r ratings IH]; intros rating Hc.
  - exists rating. simpl. split; [done|]. split; [lia|].
    by rewrite Qplus_0_r.
  - destruct (updateRating_step rating r Hc) as (rating' & Hstep & Hcount & Havg).
    destruct (IH rating') as (final & Hfold & Hcount' & Havg'); [lia|].
    exists final. simpl. rewrite Hstep. split; [exact Hfold|].
    split; [rewrite Hcount', Hcount; lia|].
    rewrite Havg', Havg. ring.
Qed.

(** X28. [updateRating] keeps a running mean: starting from the defaults, after
    any sequence of ratings the count is their number and, in exact
    arithmetic, the average times the count is their sum; when every rating
    lies between 0 and 5, so does the average, which is what the validators
    of the schema ask of it at each save. *)
Theorem updateRating_running_mean (ratings : list Q) :
  ∃ final,
    foldl (λ acc r, acc ≫= λ rating, Rating.updateRating rating r)
      (Some Rating.initial) ratings = Some final
    ∧ Rating.count final = Z.of_nat (length ratings)
    ∧ (Rating.average final * inject_Z (Rating.count final)
       == foldr Qplus 0 ratings)%Q
    ∧ (Forall (λ r, 0 <= r ∧ r <= 5)%Q ratings → Rating.valid final = true).
Proof.
  destruct (updateRating_fold ratings Rating.initial) as (final & Hfold & Hc & Ha);
    [simpl; lia|].
  simpl in Hc, Ha. exists final. split; [done|]. split; [done|].
  assert (Hsum : (Rating.average final * inject_Z (Rating.count final)
                  == foldr Qplus 0 ratings)%Q).
  { rewrite Ha. ring. }
  split; [done|]. intros Hall.
  assert (Hbounds : (0 <= foldr Qplus 0 ratings
                     ∧ foldr Qplus 0 ratings
                       <= 5 * inject_Z (Z.of_nat (length ratings)))%Q).
  { clear -Hall.
    induction Hall as [|r rs [H0 H5] _ [IH0 IH5]]; cbn [foldr length].
    - split; [apply Qle_refl | discriminate].
    - split.
      + apply (Qle_trans _ (0 + 0)); [exact (Qle_refl 0)|].
        by apply Qplus_le_compat.
      + rewrite Nat2Z.inj_succ. unfold Z.succ. rewrite inject_Z_plus.
        rewrite Qmult_plus_distr_r, Qplus_comm.
        apply Qplus_le_compat; [done|]. by rewrite Qmult_1_r. }
  destruct Hbounds as [H0 H5].
  unfold Rating.valid. apply andb_true_intro.
  destruct ratings as [|r ratings].
  - simpl in Hfold. injection Hfold as <-. done.
  - assert (Hpos : (0 < inject_Z (Rating.count final))%Q).
    { rewrite Hc. change 0%Q with (inject_Z 0). rewrite <- Zlt_Qlt.
      simpl length. lia. }
    assert (Havg : (Rating.average final
                    == foldr Qplus 0 (r :: ratings)
                       / inject_Z (Rating.count final))%Q).
    { rewrite <- Hsum. symmetry. apply Qdiv_mult_l.
      intros Hz. rewrite Hz in Hpos. by apply Qlt_irrefl in Hpos. }
    split; apply Qle_bool_iff; rewrite Havg.
    + apply Qle_shift_div_l; [done|]. by rewrite Qmult_0_l.
    + apply Qle_shift_div_r; [done|]. by rewrite Hc.
Qed.
